(** * IBKR trades converter: the statement-to-ledger conversion of [main.py]

    A shallow embedding of [main.py]: the dataclasses, [parse_xml],
    [convert], [process_xml_files] and [get_trades_from_xmls], followed by
    the properties of the conversion.

    - A Python [float] is an IEEE 754 binary64 value: [spec_float] with
      precision 53 and maximal exponent 1024, with the Standard Library's
      executable arithmetic on it.
    - An exception is a value; code that may raise returns a [result].
    - What [Element.get] returns is an [option string] ([None] is Python's
      [None]), so every dataclass field filled from it is one as well.
    - The builtins the module calls on text ([float], [int], [repr],
      [ET.fromstring]) are the fields of the class [Builtins]. *)

From Stdlib Require Import ZArith QArith Qabs String Ascii List Lia.
From Stdlib Require Import Floats.SpecFloat.
From Stdlib Require Import DecimalString.
From stdpp Require Import base option list strings gmap.

Close Scope Q_scope.
Open Scope Z_scope.
Open Scope string_scope.
Open Scope list_scope.

Set Warnings "-register-all".

(* ===================================================================== *)
(** ** Exceptions and results *)

Inductive exn_class :=
| ParseError | TypeError | ValueError | AttributeError | OverflowError
| OSError.

(** An exception: its class and [str(e)]. *)
Record exn := Exn { exn_cls : exn_class; exn_str : string }.

Inductive result (A : Type) :=
| Ok (a : A)
| Raise (e : exn).
Arguments Ok {A} a.
Arguments Raise {A} e.

#[global] Instance result_ret : MRet result := fun A a => Ok a.
#[global] Instance result_bind : MBind result := fun A B f m =>
  match m with
  | Ok a => f a
  | Raise e => Raise e
  end.

Definition is_Ok {A} (r : result A) : bool :=
  match r with Ok _ => true | Raise _ => false end.

(** [for x in l: body], the body updating the loop's state or raising. *)
Fixpoint for_each {A S} (body : S -> A -> result S) (l : list A) (s : S)
  : result S :=
  match l with
  | [] => Ok s
  | x :: l' => s' ← body s x; for_each body l' s'
  end.

(* ===================================================================== *)
(** ** Python floats *)

Definition float := spec_float.

Definition prec : Z := 53.
Definition emax : Z := 1024.

Definition fzero : float := S754_zero false.
Definition fmul : float -> float -> float := SFmul prec emax.
Definition fabs : float -> float := SFabs.
(** [x < y], [x <= y] and [x == y] on floats. *)
Definition flt : float -> float -> bool := SFltb.
Definition fle : float -> float -> bool := SFleb.
Definition feq : float -> float -> bool := SFeqb.

Definition is_nan (x : float) : bool :=
  match x with S754_nan => true | _ => false end.

Definition is_finite (x : float) : bool :=
  match x with S754_zero _ | S754_finite _ _ _ => true | _ => false end.

(** [int(x)] on a float: truncation toward zero; it raises on an infinity
    and on a NaN. *)
Definition int_of_float (x : float) : result Z :=
  match x with
  | S754_zero _ => Ok 0
  | S754_finite s m e => Ok (cond_Zopp s (Z.shiftl (Z.pos m) e))
  | S754_infinity _ =>
      Raise (Exn OverflowError "cannot convert float infinity to integer")
  | S754_nan =>
      Raise (Exn ValueError "cannot convert float NaN to integer")
  end.

(** The rational a finite float stands for: [(-1)^s * m * 2^e]. *)
Definition float_value (x : float) : Q :=
  match x with
  | S754_finite s m e =>
      match e with
      | Z.neg p => Qmake (cond_Zopp s (Z.pos m)) (2 ^ p)%positive
      | _ => Qmake (cond_Zopp s (Z.pos m * 2 ^ e)) 1
      end
  | _ => 0%Q
  end.

(** Truncation of a rational toward zero. *)
Definition Qtruncate (q : Q) : Z := Z.quot (Qnum q) (Z.pos (Qden q)).

(* ===================================================================== *)
(** ** The dataclasses *)

Module AccountInformation.
Record t := mk {
  accountId : option string;
  acctAlias : option string;
  currency : option string;
  dateOpened : option string;
}.
End AccountInformation.

Module Trade.
Record t := mk {
  symbol : option string;
  transactionType : option string;
  exchange : option string;
  quantity : float;
  tradePrice : float;
  currency : option string;
  fxRateToBase : float;
  assetCategory : option string;
  ibCommission : float;
  ibCommissionCurrency : option string;
  tradeDate : option string;
}.

Definition side (self : t) : string :=
  if flt (quantity self) fzero then "SELL" else "BUY".

Definition tradePriceInBaseCurrency (self : t) : float :=
  fabs (fmul (tradePrice self) (fxRateToBase self)).

Definition ibCommissionInBaseCurrency (self : t) : float :=
  let ibCommission := fabs (ibCommission self) in
  if decide (ibCommissionCurrency self = currency self)
  then fmul ibCommission (fxRateToBase self)
  else ibCommission.
End Trade.

Module Lot.
Record t := mk {
  symbol : option string;
  transactionType : option string;
  exchange : option string;
  quantity : float;
  tradePrice : float;
  currency : option string;
  fxRateToBase : float;
  assetCategory : option string;
  ibCommission : option string;
  ibCommissionCurrency : option string;
  tradeDate : option string;
}.
End Lot.

Module Trades.
Record t := mk {
  trade : list Trade.t;
  lot : list Lot.t;
}.
End Trades.

Module FlexStatement.
Record t := mk {
  accountId : option string;
  fromDate : option string;
  toDate : option string;
  period : option string;
  whenGenerated : option string;
  accountInformation : option AccountInformation.t;
  trades : option Trades.t;
}.
End FlexStatement.

Module FlexStatements.
Record t := mk {
  count : Z;
  flexStatement : list FlexStatement.t;
}.
End FlexStatements.

Module FlexQueryResponse.
Record t := mk {
  queryName : option string;
  type : option string;
  flexStatements : option FlexStatements.t;
}.
End FlexQueryResponse.

Module CgtCalculatorTrade.
Record t := mk {
  side : string;
  date : option string;
  company : option string;
  shares : Z;
  price : float;
  charges : float;
  tax : Z;
}.
End CgtCalculatorTrade.

(* ===================================================================== *)
(** ** [convert] *)

(** The keyword arguments are evaluated in the order they are written;
    [int] is the only one that can raise, and [tax] takes its default. *)
Definition convert (ibkrTrade : Trade.t) : result CgtCalculatorTrade.t :=
  let side := Trade.side ibkrTrade in
  let date := Trade.tradeDate ibkrTrade in
  let company := Trade.symbol ibkrTrade in
  shares ← int_of_float (fabs (Trade.quantity ibkrTrade));
  let price := Trade.tradePriceInBaseCurrency ibkrTrade in
  let charges := Trade.ibCommissionInBaseCurrency ibkrTrade in
  Ok (CgtCalculatorTrade.mk side date company shares price charges 0).

(* ===================================================================== *)
(** ** Element trees and the builtins *)

(** What [ET.fromstring] builds: a tag, the attribute dictionary and the
    children in document order. *)
Inductive Element := mkElement {
  tag : string;
  attrib : gmap string string;
  children : list Element;
}.

(** [elem.get(key)]. *)
Definition get (elem : Element) (key : string) : option string :=
  attrib elem !! key.

(** [elem.findall(t)] and [elem.find(t)] for a path that is a plain tag:
    the children with that tag in document order, and the first of them. *)
Definition findall (elem : Element) (t : string) : list Element :=
  filter (fun c => tag c = t) (children elem).

Definition find (elem : Element) (t : string) : option Element :=
  head (findall elem t).

(** The builtins applied to text. [float_of_str s] and [int_of_str s] are
    [float(s)] and [int(s)] on a [str], [None] where they raise
    [ValueError]; [repr] is [repr] on a [str]; [fromstring] is
    [ET.fromstring], [inl msg] where it raises [ParseError(msg)]. *)
Class Builtins := {
  float_of_str : string -> option float;
  int_of_str : string -> option Z;
  repr : string -> string;
  fromstring : string -> string + Element;
}.

(** The operating system under the script: [os.listdir(path)] and what
    [open(path, "r", encoding="utf-8")] followed by [read()] gives. *)
Record FileSystem := {
  listdir : string -> result (list string);
  read_text : string -> result string;
}.

Section Program.
Context `{!Builtins}.

(** [float(x)] for [x] a [str] or [None]. *)
Definition py_float (x : option string) : result float :=
  match x with
  | None =>
      Raise (Exn TypeError
        "float() argument must be a string or a real number, not 'NoneType'")
  | Some s =>
      match float_of_str s with
      | Some f => Ok f
      | None =>
          Raise (Exn ValueError
            ("could not convert string to float: " +:+ repr s))
      end
  end.

(** [int(x)] for [x] a [str] or [None]. *)
Definition py_int (x : option string) : result Z :=
  match x with
  | None =>
      Raise (Exn TypeError
        "int() argument must be a string, a bytes-like object or a real number, not 'NoneType'")
  | Some s =>
      match int_of_str s with
      | Some n => Ok n
      | None =>
          Raise (Exn ValueError
            ("invalid literal for int() with base 10: " +:+ repr s))
      end
  end.

(** Lines 119-122: [float] under [try], with
    [except (ValueError, TypeError)] giving [0.0]. *)
Definition commission_or_zero (x : option string) : result float :=
  match py_float x with
  | Ok f => Ok f
  | Raise e =>
      match exn_cls e with
      | ValueError | TypeError => Ok fzero
      | _ => Raise e
      end
  end.

(** Lines 119-136, one iteration: the [Trade] built from a [Trade]
    element. *)
Definition parse_trade (trade_elem : Element) : result Trade.t :=
  ibCommission ← commission_or_zero (get trade_elem "ibCommission");
  let symbol := get trade_elem "symbol" in
  let transactionType := get trade_elem "transactionType" in
  let exchange := get trade_elem "exchange" in
  quantity ← py_float (get trade_elem "quantity");
  tradePrice ← py_float (get trade_elem "tradePrice");
  let currency := get trade_elem "currency" in
  fxRateToBase ← py_float (get trade_elem "fxRateToBase");
  let assetCategory := get trade_elem "assetCategory" in
  let ibCommissionCurrency := get trade_elem "ibCommissionCurrency" in
  let tradeDate := get trade_elem "tradeDate" in
  Ok (Trade.mk symbol transactionType exchange quantity tradePrice
        currency fxRateToBase assetCategory ibCommission
        ibCommissionCurrency tradeDate).

(** Lines 138-150, one iteration. *)
Definition parse_lot (lot_elem : Element) : result Lot.t :=
  let symbol := get lot_elem "symbol" in
  let transactionType := get lot_elem "transactionType" in
  let exchange := get lot_elem "exchange" in
  quantity ← py_float (get lot_elem "quantity");
  tradePrice ← py_float (get lot_elem "tradePrice");
  let currency := get lot_elem "currency" in
  fxRateToBase ← py_float (get lot_elem "fxRateToBase");
  let assetCategory := get lot_elem "assetCategory" in
  let ibCommission := get lot_elem "ibCommission" in
  let ibCommissionCurrency := get lot_elem "ibCommissionCurrency" in
  let tradeDate := get lot_elem "tradeDate" in
  Ok (Lot.mk symbol transactionType exchange quantity tradePrice
        currency fxRateToBase assetCategory ibCommission
        ibCommissionCurrency tradeDate).

(** A loop [for x in elems: out.append(f(x))]. *)
Definition append_each {A} (f : Element -> result A) (elems : list Element)
  : result (list A) :=
  for_each (fun out x => a ← f x; Ok (out ++ [a])) elems [].

(** Lines 114-150: the [Trades] of a statement element. *)
Definition parse_trades (flex_statement_elem : Element)
  : result (option Trades.t) :=
  match find flex_statement_elem "Trades" with
  | None => Ok None
  | Some trades_elem =>
      trade ← append_each parse_trade (findall trades_elem "Trade");
      lot ← append_each parse_lot (findall trades_elem "Lot");
      Ok (Some (Trades.mk trade lot))
  end.

(** Lines 106-113. *)
Definition parse_account_information (flex_statement_elem : Element)
  : option AccountInformation.t :=
  match find flex_statement_elem "AccountInformation" with
  | None => None
  | Some account_info_elem =>
      Some (AccountInformation.mk
              (get account_info_elem "accountId")
              (get account_info_elem "acctAlias")
              (get account_info_elem "currency")
              (get account_info_elem "dateOpened"))
  end.

(** Lines 97-150, one iteration. The statement is appended to the
    collection before its two optional fields are assigned; the
    collection holds the same object, so what the parser returns is the
    statement with both fields set. *)
Definition parse_statement (flex_statement_elem : Element)
  : result FlexStatement.t :=
  let accountId := get flex_statement_elem "accountId" in
  let fromDate := get flex_statement_elem "fromDate" in
  let toDate := get flex_statement_elem "toDate" in
  let period := get flex_statement_elem "period" in
  let whenGenerated := get flex_statement_elem "whenGenerated" in
  let accountInformation := parse_account_information flex_statement_elem in
  trades ← parse_trades flex_statement_elem;
  Ok (FlexStatement.mk accountId fromDate toDate period whenGenerated
        accountInformation trades).

(** Lines 84-152: [parse_xml] from the root element on. *)
Definition parse_root (root : Element) : result FlexQueryResponse.t :=
  let queryName := get root "queryName" in
  let type := get root "type" in
  flexStatements ←
    match find root "FlexStatements" with
    | None => Ok None
    | Some flex_statements_elem =>
        count ← py_int (get flex_statements_elem "count");
        flexStatement ←
          append_each parse_statement
            (findall flex_statements_elem "FlexStatement");
        Ok (Some (FlexStatements.mk count flexStatement))
    end;
  Ok (FlexQueryResponse.mk queryName type flexStatements).

Definition parse_xml (xml_string : string) : result FlexQueryResponse.t :=
  match fromstring xml_string with
  | inl msg => Raise (Exn ParseError msg)
  | inr root => parse_root root
  end.

(* =================================================================== *)
(** ** [process_xml_files] and [get_trades_from_xmls] *)

(** [s.endswith(suffix)]. *)
Definition endswith (s suffix : string) : bool :=
  let n := String.length s in
  let m := String.length suffix in
  (m <=? n)%nat && String.eqb (substring (n - m) m s) suffix.

(** [os.path.join(folder_path, filename)] for a name that [os.listdir]
    returned. *)
Definition path_join (folder_path filename : string) : string :=
  folder_path +:+ "/" +:+ filename.

(** Lines 179-187: the [try] block and its two handlers. The state of
    the loop is the list of parsed documents and the lines printed. *)
Definition process_file (fs : FileSystem) (folder_path : string)
    (st : list FlexQueryResponse.t * list string) (filename : string)
  : list FlexQueryResponse.t * list string :=
  let '(parsed_data_list, stdout) := st in
  if endswith filename ".xml" then
    let filepath := path_join folder_path filename in
    match xml_string ← read_text fs filepath; parse_xml xml_string with
    | Ok parsed_data => (parsed_data_list ++ [parsed_data], stdout)
    | Raise e =>
        match exn_cls e with
        | ParseError =>
            (parsed_data_list,
             stdout ++ ["Error parsing XML file " +:+ filename +:+ ": "
                          +:+ exn_str e])
        | _ =>
            (parsed_data_list,
             stdout ++ ["An unexpected error occurred processing "
                          +:+ filename +:+ ": " +:+ exn_str e])
        end
    end
  else st.

(** The loop of lines 176-187 over the names [os.listdir] gave. *)
Definition process_names (fs : FileSystem) (folder_path : string)
    (names : list string) (st : list FlexQueryResponse.t * list string)
  : list FlexQueryResponse.t * list string :=
  fold_left (process_file fs folder_path) names st.

(** The documents parsed, and the lines printed. *)
Definition process_xml_files (fs : FileSystem) (folder_path : string)
  : result (list FlexQueryResponse.t) * list string :=
  match listdir fs folder_path with
  | Raise e => (Raise e, [])
  | Ok names =>
      let '(parsed_data_list, stdout) :=
        process_names fs folder_path names ([], []) in
      (Ok parsed_data_list, stdout)
  end.

(** Reading an attribute of [None]. *)
Definition attribute_of_None (name : string) : exn :=
  Exn AttributeError
    ("'NoneType' object has no attribute '" +:+ name +:+ "'").

(** Lines 197-199: the body of the innermost loop. *)
Definition add_trade (trades : list CgtCalculatorTrade.t) (txn : Trade.t)
  : result (list CgtCalculatorTrade.t) :=
  if decide (Trade.assetCategory txn = Some "CASH") then Ok trades
  else row ← convert txn; Ok (trades ++ [row]).

(** Lines 196-199: [for txn in statement.trades.trade]. *)
Definition add_statement (trades : list CgtCalculatorTrade.t)
    (statement : FlexStatement.t) : result (list CgtCalculatorTrade.t) :=
  match FlexStatement.trades statement with
  | None => Raise (attribute_of_None "trade")
  | Some ts => for_each add_trade (Trades.trade ts) trades
  end.

(** Lines 195-199: [for statement in data.flexStatements.flexStatement]. *)
Definition add_document (trades : list CgtCalculatorTrade.t)
    (data : FlexQueryResponse.t) : result (list CgtCalculatorTrade.t) :=
  match FlexQueryResponse.flexStatements data with
  | None => Raise (attribute_of_None "flexStatement")
  | Some fss =>
      for_each add_statement (FlexStatements.flexStatement fss) trades
  end.

(** Lines 192 and 194-200: the rows of the parsed documents. *)
Definition collect_trades (parsed_data : list FlexQueryResponse.t)
  : result (list CgtCalculatorTrade.t) :=
  for_each add_document parsed_data [].

(** The rows returned, and the lines printed. *)
Definition get_trades_from_xmls (fs : FileSystem)
  : result (list CgtCalculatorTrade.t) * list string :=
  let '(parsed_data, stdout) := process_xml_files fs "data" in
  (parsed_data ← parsed_data; collect_trades parsed_data, stdout).

End Program.

(* ===================================================================== *)
(** ** Reading the order of the rows off the documents *)

(** The statements and the trades the loops of [get_trades_from_xmls]
    visit, an absent owner standing for none. *)
Definition statements_of (data : FlexQueryResponse.t)
  : list FlexStatement.t :=
  match FlexQueryResponse.flexStatements data with
  | Some fss => FlexStatements.flexStatement fss
  | None => []
  end.

Definition trades_of (statement : FlexStatement.t) : list Trade.t :=
  match FlexStatement.trades statement with
  | Some ts => Trades.trade ts
  | None => []
  end.

(** The nested traversal: documents in the order given, the statements of
    each in parsed order, the trades of each statement in parsed order. *)
Definition traversal (parsed_data : list FlexQueryResponse.t)
  : list Trade.t :=
  data ← parsed_data; statement ← statements_of data; trades_of statement.

(** The trades the filter keeps. *)
Definition kept (txns : list Trade.t) : list Trade.t :=
  filter (fun txn => Trade.assetCategory txn ≠ Some "CASH") txns.

(** [r] is the row of [txn]. *)
Definition row_of (txn : Trade.t) (r : CgtCalculatorTrade.t) : Prop :=
  convert txn = Ok r.

(** Every owner on the way to the trades is present. *)
Definition owners_present (parsed_data : list FlexQueryResponse.t) : Prop :=
  Forall (fun data =>
            is_Some (FlexQueryResponse.flexStatements data) /\
            Forall (fun statement =>
                      is_Some (FlexStatement.trades statement))
                   (statements_of data))
         parsed_data.

(** Following the words of the specification: the absolute value of the
    quantity, truncated toward zero to an integer. *)
Definition truncated_magnitude (quantity : float) : Z :=
  Qtruncate (Qabs (float_value quantity)).

(** What [process_xml_files] does with one name, as the claims word it. *)
Section Outcomes.
Context `{!Builtins}.

(** Reading and parsing the file of one name. *)
Definition outcome (fs : FileSystem) (folder_path filename : string)
  : result FlexQueryResponse.t :=
  xml_string ← read_text fs (path_join folder_path filename);
  parse_xml xml_string.

(** The line printed for a file that failed with [e]. *)
Definition report (filename : string) (e : exn) : string :=
  match exn_cls e with
  | ParseError => "Error parsing XML file "
  | _ => "An unexpected error occurred processing "
  end +:+ filename +:+ ": " +:+ exn_str e.

(** The documents of the names that parse, and the reports of the names
    that fail, in the order of the names. *)
Definition parsed_of (fs : FileSystem) (folder_path : string)
    (names : list string) : list FlexQueryResponse.t :=
  filename ← names;
  if endswith filename ".xml" then
    match outcome fs folder_path filename with
    | Ok parsed_data => [parsed_data]
    | Raise _ => []
    end
  else [].

Definition reports_of (fs : FileSystem) (folder_path : string)
    (names : list string) : list string :=
  filename ← names;
  if endswith filename ".xml" then
    match outcome fs folder_path filename with
    | Ok _ => []
    | Raise e => [report filename e]
    end
  else [].

(** The [Trade] elements [parse_root] reaches. *)
Definition reached_trade (root trade_elem : Element) : Prop :=
  exists flex_statements_elem flex_statement_elem trades_elem,
    find root "FlexStatements" = Some flex_statements_elem /\
    flex_statement_elem ∈ findall flex_statements_elem "FlexStatement" /\
    find flex_statement_elem "Trades" = Some trades_elem /\
    trade_elem ∈ findall trades_elem "Trade".

(** An attribute that is absent or that [float] rejects. *)
Definition not_a_float (x : option string) : Prop :=
  x = None \/ exists s, x = Some s /\ float_of_str s = None.

(** An attribute that is absent or that [int] rejects. *)
Definition not_an_int (x : option string) : Prop :=
  x = None \/ exists s, x = Some s /\ int_of_str s = None.
End Outcomes.

(** A statement with another account. *)
Definition with_account (a : option AccountInformation.t)
    (statement : FlexStatement.t) : FlexStatement.t :=
  FlexStatement.mk
    (FlexStatement.accountId statement) (FlexStatement.fromDate statement)
    (FlexStatement.toDate statement) (FlexStatement.period statement)
    (FlexStatement.whenGenerated statement) a
    (FlexStatement.trades statement).

(* ===================================================================== *)
(** ** The builtins on plain literals, and example documents *)

Module Plain.

Definition digit_of (c : ascii) : option Z :=
  let n := Z.of_N (N_of_ascii c) in
  if ((48 <=? n)%Z && (n <=? 57)%Z) then Some (n - 48) else None.

Fixpoint decimal_value (s : string) (acc : Z) : option Z :=
  match s with
  | EmptyString => Some acc
  | String c s' => d ← digit_of c; decimal_value s' (10 * acc + d)
  end.

Fixpoint split_at_dot (s : string) : string * option string :=
  match s with
  | EmptyString => (EmptyString, None)
  | String c s' =>
      if Ascii.eqb c "." then (EmptyString, Some s')
      else let '(a, b) := split_at_dot s' in (String c a, b)
  end.

Definition strip_sign (s : string) : bool * string :=
  match s with
  | String c s' =>
      if Ascii.eqb c "-" then (true, s')
      else if Ascii.eqb c "+" then (false, s') else (false, s)
  | EmptyString => (false, s)
  end.

(** The binary64 value nearest to [n / 10^k], ties to even. *)
Definition decimal_float (neg : bool) (n : Z) (k : nat) : float :=
  match n with
  | Z.pos m =>
      SFdiv prec emax (S754_finite neg m 0)
        (S754_finite false (Z.to_pos (10 ^ Z.of_nat k)) 0)
  | _ => S754_zero neg
  end.

(** [float] on a sign, then [inf], [nan], or digits with at most one
    point; other literals [float] accepts (exponents, underscores,
    surrounding blanks, other spellings of the infinities) are not
    covered and are answered with [None]. *)
Definition float_of_str (s : string) : option float :=
  let '(neg, body) := strip_sign s in
  if String.eqb body "inf" then Some (S754_infinity neg)
  else if String.eqb body "nan" then Some S754_nan
  else
    let '(ip, fp) := split_at_dot body in
    let fp' := default EmptyString fp in
    if String.eqb (ip +:+ fp') EmptyString then None
    else
      n ← decimal_value (ip +:+ fp') 0;
      Some (decimal_float neg n (String.length fp')).

(** [int] on a sign followed by digits. *)
Definition int_of_str (s : string) : option Z :=
  let '(neg, body) := strip_sign s in
  if String.eqb body EmptyString then None
  else n ← decimal_value body 0; Some (cond_Zopp neg n).

(** [repr] on a string without quotes, backslashes or control
    characters. *)
Definition repr (s : string) : string := "'" +:+ s +:+ "'".

Definition elem (t : string) (attrs : list (string * string))
    (cs : list Element) : Element :=
  mkElement t (list_to_map attrs) cs.

(** The scenario of the specification: one statement, one sale. *)
Definition aapl_text : string :=
  "<FlexQueryResponse queryName='cgt' type='AF'><FlexStatements count='1'><FlexStatement accountId='U1'><Trades><Trade symbol='AAPL' quantity='-10' tradePrice='150.0' currency='USD' fxRateToBase='1.0' assetCategory='STK' ibCommission='1.0' ibCommissionCurrency='USD' tradeDate='2024-01-05'/></Trades></FlexStatement></FlexStatements></FlexQueryResponse>".

Definition aapl_trade_elem : Element :=
  elem "Trade"
    [("symbol", "AAPL"); ("quantity", "-10"); ("tradePrice", "150.0");
     ("currency", "USD"); ("fxRateToBase", "1.0");
     ("assetCategory", "STK"); ("ibCommission", "1.0");
     ("ibCommissionCurrency", "USD"); ("tradeDate", "2024-01-05")] [].

Definition aapl_root : Element :=
  elem "FlexQueryResponse" [("queryName", "cgt"); ("type", "AF")]
    [elem "FlexStatements" [("count", "1")]
       [elem "FlexStatement" [("accountId", "U1")]
          [elem "Trades" [] [aapl_trade_elem]]]].

(** Two statements: a fractional sale, a cash movement and a purchase
    without commission in the first, a purchase in another currency and
    a lot in the second. *)
Definition mixed_text : string :=
  "<FlexQueryResponse queryName='cgt' type='AF'><FlexStatements count='2'><FlexStatement accountId='U1'><AccountInformation accountId='U1' currency='GBP'/><Trades><Trade symbol='MSFT' quantity='-12.7' tradePrice='300' currency='USD' fxRateToBase='0.79' assetCategory='STK' ibCommission='-1.5' ibCommissionCurrency='USD' tradeDate='2024-02-01'/><Trade symbol='EUR.GBP' quantity='1000' tradePrice='0.85' currency='GBP' fxRateToBase='1' assetCategory='CASH' ibCommission='-2' ibCommissionCurrency='GBP' tradeDate='2024-02-02'/><Trade symbol='VOD' quantity='5' tradePrice='70' currency='GBP' fxRateToBase='1' assetCategory='STK' ibCommissionCurrency='GBP' tradeDate='2024-02-03'/></Trades></FlexStatement><FlexStatement accountId='U2'><Trades><Trade symbol='SAP' quantity='3' tradePrice='120' currency='EUR' fxRateToBase='0.85' assetCategory='STK' ibCommission='-4' ibCommissionCurrency='GBP' tradeDate='2024-02-04'/><Lot symbol='SAP' quantity='3' tradePrice='120' fxRateToBase='0.85'/></Trades></FlexStatement></FlexStatements></FlexQueryResponse>".

Definition msft_trade_elem : Element :=
  elem "Trade"
    [("symbol", "MSFT"); ("quantity", "-12.7"); ("tradePrice", "300");
     ("currency", "USD"); ("fxRateToBase", "0.79");
     ("assetCategory", "STK"); ("ibCommission", "-1.5");
     ("ibCommissionCurrency", "USD"); ("tradeDate", "2024-02-01")] [].

Definition cash_trade_elem : Element :=
  elem "Trade"
    [("symbol", "EUR.GBP"); ("quantity", "1000"); ("tradePrice", "0.85");
     ("currency", "GBP"); ("fxRateToBase", "1");
     ("assetCategory", "CASH"); ("ibCommission", "-2");
     ("ibCommissionCurrency", "GBP"); ("tradeDate", "2024-02-02")] [].

(** A purchase whose [ibCommission] attribute is absent. *)
Definition vod_trade_elem : Element :=
  elem "Trade"
    [("symbol", "VOD"); ("quantity", "5"); ("tradePrice", "70");
     ("currency", "GBP"); ("fxRateToBase", "1");
     ("assetCategory", "STK");
     ("ibCommissionCurrency", "GBP"); ("tradeDate", "2024-02-03")] [].

Definition sap_trade_elem : Element :=
  elem "Trade"
    [("symbol", "SAP"); ("quantity", "3"); ("tradePrice", "120");
     ("currency", "EUR"); ("fxRateToBase", "0.85");
     ("assetCategory", "STK"); ("ibCommission", "-4");
     ("ibCommissionCurrency", "GBP"); ("tradeDate", "2024-02-04")] [].

Definition mixed_root : Element :=
  elem "FlexQueryResponse" [("queryName", "cgt"); ("type", "AF")]
    [elem "FlexStatements" [("count", "2")]
       [elem "FlexStatement" [("accountId", "U1")]
          [elem "AccountInformation"
             [("accountId", "U1"); ("currency", "GBP")] [];
           elem "Trades" []
             [msft_trade_elem; cash_trade_elem; vod_trade_elem]];
        elem "FlexStatement" [("accountId", "U2")]
          [elem "Trades" []
             [sap_trade_elem;
              elem "Lot"
                [("symbol", "SAP"); ("quantity", "3");
                 ("tradePrice", "120"); ("fxRateToBase", "0.85")] []]]]].

(** A document without a statement collection. *)
Definition no_collection_text : string :=
  "<FlexQueryResponse queryName='cgt' type='AF'/>".

Definition no_collection_root : Element :=
  elem "FlexQueryResponse" [("queryName", "cgt"); ("type", "AF")] [].

(** A statement without a trade block. *)
Definition no_trades_text : string :=
  "<FlexQueryResponse queryName='cgt' type='AF'><FlexStatements count='1'><FlexStatement accountId='U1'/></FlexStatements></FlexQueryResponse>".

Definition no_trades_root : Element :=
  elem "FlexQueryResponse" [("queryName", "cgt"); ("type", "AF")]
    [elem "FlexStatements" [("count", "1")]
       [elem "FlexStatement" [("accountId", "U1")] []]].

(** A trade block without trades. *)
Definition empty_trades_text : string :=
  "<FlexQueryResponse queryName='cgt' type='AF'><FlexStatements count='1'><FlexStatement accountId='U1'><Trades/></FlexStatement></FlexStatements></FlexQueryResponse>".

Definition empty_trades_root : Element :=
  elem "FlexQueryResponse" [("queryName", "cgt"); ("type", "AF")]
    [elem "FlexStatements" [("count", "1")]
       [elem "FlexStatement" [("accountId", "U1")]
          [elem "Trades" [] []]]].

(** A statement collection without [count]. *)
Definition no_count_text : string :=
  "<FlexQueryResponse queryName='cgt' type='AF'><FlexStatements/></FlexQueryResponse>".

Definition no_count_root : Element :=
  elem "FlexQueryResponse" [("queryName", "cgt"); ("type", "AF")]
    [elem "FlexStatements" [] []].

(** A trade whose quantity is not a number. *)
Definition bad_quantity_trade_elem : Element :=
  elem "Trade"
    [("symbol", "AAPL"); ("quantity", "ten"); ("tradePrice", "150.0");
     ("currency", "USD"); ("fxRateToBase", "1.0");
     ("assetCategory", "STK"); ("ibCommission", "1.0");
     ("ibCommissionCurrency", "USD"); ("tradeDate", "2024-01-05")] [].

Definition bad_quantity_text : string :=
  "<FlexQueryResponse queryName='cgt' type='AF'><FlexStatements count='1'><FlexStatement accountId='U1'><Trades><Trade symbol='AAPL' quantity='ten' tradePrice='150.0' currency='USD' fxRateToBase='1.0' assetCategory='STK' ibCommission='1.0' ibCommissionCurrency='USD' tradeDate='2024-01-05'/></Trades></FlexStatement></FlexStatements></FlexQueryResponse>".

Definition bad_quantity_root : Element :=
  elem "FlexQueryResponse" [("queryName", "cgt"); ("type", "AF")]
    [elem "FlexStatements" [("count", "1")]
       [elem "FlexStatement" [("accountId", "U1")]
          [elem "Trades" [] [bad_quantity_trade_elem]]]].

(** A trade without commission whose rate is an infinity. *)
Definition inf_rate_trade_elem : Element :=
  elem "Trade"
    [("symbol", "AAPL"); ("quantity", "1"); ("tradePrice", "1");
     ("currency", "USD"); ("fxRateToBase", "inf");
     ("assetCategory", "STK");
     ("ibCommissionCurrency", "USD"); ("tradeDate", "2024-01-05")] [].

(** A trade whose quantity is an infinity. *)
Definition inf_quantity_trade_elem : Element :=
  elem "Trade"
    [("symbol", "AAPL"); ("quantity", "inf"); ("tradePrice", "1");
     ("currency", "USD"); ("fxRateToBase", "1");
     ("assetCategory", "STK"); ("ibCommission", "1");
     ("ibCommissionCurrency", "USD"); ("tradeDate", "2024-01-05")] [].

(** [ET.fromstring] on the texts above; any other text is answered as
    text that is not XML is. *)
Definition fromstring (s : string) : string + Element :=
  if String.eqb s aapl_text then inr aapl_root
  else if String.eqb s mixed_text then inr mixed_root
  else if String.eqb s no_collection_text then inr no_collection_root
  else if String.eqb s no_trades_text then inr no_trades_root
  else if String.eqb s empty_trades_text then inr empty_trades_root
  else if String.eqb s no_count_text then inr no_count_root
  else if String.eqb s bad_quantity_text then inr bad_quantity_root
  else inl "syntax error: line 1, column 0".

(** The float of a literal. *)
Definition lit (s : string) : float := default S754_nan (float_of_str s).

(** The trades the elements above stand for. *)
Definition aapl_trade : Trade.t :=
  Trade.mk (Some "AAPL") None None (lit "-10") (lit "150.0") (Some "USD")
    (lit "1.0") (Some "STK") (lit "1.0") (Some "USD") (Some "2024-01-05").

Definition msft_trade : Trade.t :=
  Trade.mk (Some "MSFT") None None (lit "-12.7") (lit "300") (Some "USD")
    (lit "0.79") (Some "STK") (lit "-1.5") (Some "USD")
    (Some "2024-02-01").

Definition cash_trade : Trade.t :=
  Trade.mk (Some "EUR.GBP") None None (lit "1000") (lit "0.85")
    (Some "GBP") (lit "1") (Some "CASH") (lit "-2") (Some "GBP")
    (Some "2024-02-02").

Definition vod_trade : Trade.t :=
  Trade.mk (Some "VOD") None None (lit "5") (lit "70") (Some "GBP")
    (lit "1") (Some "STK") fzero (Some "GBP") (Some "2024-02-03").

Definition sap_trade : Trade.t :=
  Trade.mk (Some "SAP") None None (lit "3") (lit "120") (Some "EUR")
    (lit "0.85") (Some "STK") (lit "-4") (Some "GBP") (Some "2024-02-04").

Definition inf_rate_trade : Trade.t :=
  Trade.mk (Some "AAPL") None None (lit "1") (lit "1") (Some "USD")
    (lit "inf") (Some "STK") fzero (Some "USD") (Some "2024-01-05").

Definition inf_quantity_trade : Trade.t :=
  Trade.mk (Some "AAPL") None None (lit "inf") (lit "1") (Some "USD")
    (lit "1") (Some "STK") (lit "1") (Some "USD") (Some "2024-01-05").

(** A trade of no shares. *)
Definition zero_trade : Trade.t :=
  Trade.mk (Some "AAPL") None None (lit "0") (lit "150.0") (Some "USD")
    (lit "1.0") (Some "STK") (lit "1.0") (Some "USD") (Some "2024-01-05").

Definition statement (accountId : string)
    (a : option AccountInformation.t) (ts : option Trades.t)
  : FlexStatement.t :=
  FlexStatement.mk (Some accountId) None None None None a ts.

Definition document (fss : option FlexStatements.t)
  : FlexQueryResponse.t :=
  FlexQueryResponse.mk (Some "cgt") (Some "AF") fss.

(** The documents the texts above parse to. *)
Definition aapl_doc : FlexQueryResponse.t :=
  document (Some (FlexStatements.mk 1
    [statement "U1" None (Some (Trades.mk [aapl_trade] []))])).

Definition mixed_doc : FlexQueryResponse.t :=
  document (Some (FlexStatements.mk 2
    [statement "U1"
       (Some (AccountInformation.mk (Some "U1") None (Some "GBP") None))
       (Some (Trades.mk [msft_trade; cash_trade; vod_trade] []));
     statement "U2" None
       (Some (Trades.mk [sap_trade]
          [Lot.mk (Some "SAP") None None (lit "3") (lit "120") None
             (lit "0.85") None None None None]))])).

Definition no_collection_doc : FlexQueryResponse.t := document None.

Definition no_trades_doc : FlexQueryResponse.t :=
  document (Some (FlexStatements.mk 1 [statement "U1" None None])).

Definition empty_trades_doc : FlexQueryResponse.t :=
  document (Some (FlexStatements.mk 1
    [statement "U1" None (Some (Trades.mk [] []))])).

Definition inf_quantity_doc : FlexQueryResponse.t :=
  document (Some (FlexStatements.mk 1
    [statement "U1" None (Some (Trades.mk [inf_quantity_trade] []))])).

(** The rows of the trades above. *)
Definition aapl_row : CgtCalculatorTrade.t :=
  CgtCalculatorTrade.mk "SELL" (Some "2024-01-05") (Some "AAPL") 10
    (lit "150.0") (lit "1.0") 0.

Definition msft_row : CgtCalculatorTrade.t :=
  CgtCalculatorTrade.mk "SELL" (Some "2024-02-01") (Some "MSFT") 12
    (lit "237") (lit "1.185") 0.

Definition vod_row : CgtCalculatorTrade.t :=
  CgtCalculatorTrade.mk "BUY" (Some "2024-02-03") (Some "VOD") 5
    (lit "70") fzero 0.

Definition sap_row : CgtCalculatorTrade.t :=
  CgtCalculatorTrade.mk "BUY" (Some "2024-02-04") (Some "SAP") 3
    (lit "102") (lit "4") 0.

Definition zero_row : CgtCalculatorTrade.t :=
  CgtCalculatorTrade.mk "BUY" (Some "2024-01-05") (Some "AAPL") 0
    (lit "150.0") (lit "1.0") 0.

Definition inf_rate_row : CgtCalculatorTrade.t :=
  CgtCalculatorTrade.mk "BUY" (Some "2024-01-05") (Some "AAPL") 1
    (S754_infinity false) S754_nan 0.

Definition builtins : Builtins :=
  Build_Builtins float_of_str int_of_str repr fromstring.

(** A folder [data] with five entries: two statements, a file that is
    not XML, a file that cannot be opened and a file of another kind. *)
Definition data_names : list string :=
  ["aapl.xml"; "broken.xml"; "locked.xml"; "notes.txt"; "mixed.xml"].

Definition files (names : list string) : FileSystem := {|
  listdir path :=
    if String.eqb path "data" then Ok names
    else Raise (Exn OSError
      ("[Errno 2] No such file or directory: " +:+ repr path));
  read_text path :=
    if String.eqb path "data/aapl.xml" then Ok aapl_text
    else if String.eqb path "data/mixed.xml" then Ok mixed_text
    else if String.eqb path "data/broken.xml" then Ok "not xml"
    else if String.eqb path "data/none.xml" then Ok no_collection_text
    else if String.eqb path "data/bare.xml" then Ok no_trades_text
    else if String.eqb path "data/empty.xml" then Ok empty_trades_text
    else if String.eqb path "data/notes.txt" then Ok "remember"
    else Raise (Exn OSError
      ("[Errno 13] Permission denied: " +:+ repr path));
|}.

End Plain.

(* ===================================================================== *)
(** ** Record updates and negation, to compare the rows of two trades *)

Definition fopp : float -> float := SFopp.

(** [1.0], and the floats that binary64 holds. *)
Definition fone : float := S754_finite false 4503599627370496 (-52).

Definition is_binary64 (x : float) : bool := valid_binary prec emax x.

Definition with_quantity (q : float) (t : Trade.t) : Trade.t :=
  Trade.mk (Trade.symbol t) (Trade.transactionType t) (Trade.exchange t)
    q (Trade.tradePrice t) (Trade.currency t) (Trade.fxRateToBase t)
    (Trade.assetCategory t) (Trade.ibCommission t)
    (Trade.ibCommissionCurrency t) (Trade.tradeDate t).

Definition with_tradePrice (p : float) (t : Trade.t) : Trade.t :=
  Trade.mk (Trade.symbol t) (Trade.transactionType t) (Trade.exchange t)
    (Trade.quantity t) p (Trade.currency t) (Trade.fxRateToBase t)
    (Trade.assetCategory t) (Trade.ibCommission t)
    (Trade.ibCommissionCurrency t) (Trade.tradeDate t).

Definition with_fxRateToBase (fx : float) (t : Trade.t) : Trade.t :=
  Trade.mk (Trade.symbol t) (Trade.transactionType t) (Trade.exchange t)
    (Trade.quantity t) (Trade.tradePrice t) (Trade.currency t) fx
    (Trade.assetCategory t) (Trade.ibCommission t)
    (Trade.ibCommissionCurrency t) (Trade.tradeDate t).

(* ===================================================================== *)
(** ** The elements [parse_xml] reads *)

(** The [Trades] elements [parse_root] reaches: the first one of every
    [FlexStatement] child of the first [FlexStatements] child, in document
    order. *)
Definition trades_elems (root : Element) : list Element :=
  flex_statements_elem ← option_list (find root "FlexStatements");
  flex_statement_elem ← findall flex_statements_elem "FlexStatement";
  option_list (find flex_statement_elem "Trades").

(** The [Trade] and the [Lot] elements it reaches, in document order. *)
Definition trade_elems (root : Element) : list Element :=
  trades_elem ← trades_elems root; findall trades_elem "Trade".

Definition lot_elems (root : Element) : list Element :=
  trades_elem ← trades_elems root; findall trades_elem "Lot".

Section Readings.
Context `{!Builtins}.

(** [float] accepts the three numeric attributes of a trade or lot
    element. *)
Definition numeric_fields (elem : Element) : Prop :=
  is_Ok (py_float (get elem "quantity")) = true /\
  is_Ok (py_float (get elem "tradePrice")) = true /\
  is_Ok (py_float (get elem "fxRateToBase")) = true.

(** Two file systems list the same names and hold the same files under
    the names that end in [.xml]. *)
Definition same_xml_files (fs1 fs2 : FileSystem) (folder_path : string)
  : Prop :=
  listdir fs1 folder_path = listdir fs2 folder_path /\
  forall names filename,
    listdir fs1 folder_path = Ok names -> filename ∈ names ->
    endswith filename ".xml" = true ->
    read_text fs1 (path_join folder_path filename) =
    read_text fs2 (path_join folder_path filename).

End Readings.

(* ===================================================================== *)
(** ** [save_cgt_trades_to_csv] and the script *)

(** The values [asdict] gives for the fields of a row. *)
Inductive value :=
| VNone
| VStr (s : string)
| VInt (n : Z)
| VFloat (x : float).

Definition value_of_optional (o : option string) : value :=
  match o with
  | Some s => VStr s
  | None => VNone
  end.

(** [asdict(trade)]: the fields in the order of the dataclass. *)
Definition asdict (trade : CgtCalculatorTrade.t) : list (string * value) :=
  [("side", VStr (CgtCalculatorTrade.side trade));
   ("date", value_of_optional (CgtCalculatorTrade.date trade));
   ("company", value_of_optional (CgtCalculatorTrade.company trade));
   ("shares", VInt (CgtCalculatorTrade.shares trade));
   ("price", VFloat (CgtCalculatorTrade.price trade));
   ("charges", VFloat (CgtCalculatorTrade.charges trade));
   ("tax", VInt (CgtCalculatorTrade.tax trade))].

(** [csv.writer(f).writerow(row)] under the default dialect: the text it
    writes for the values of one row, line terminator included. *)
Class CsvWriter := {
  writer_writerow : list value -> string;
}.

(** [open(filename, 'w', newline='', encoding='utf-8')]: the file opens,
    or the exception raised. Writing to a file that opened is taken to
    succeed. *)
Record Disk := {
  open_w : string -> result unit;
}.

(** What a run of the script leaves: the exception it ended with, if any,
    the lines printed, and the file written, its name and text. *)
Record Run := {
  raised : option exn;
  printed : list string;
  written : option (string * string);
}.

Section Saving.
Context `{!Builtins} `{!CsvWriter}.

(** [rowdict.get(key, restval)]. *)
Definition dict_get (rowdict : list (string * value)) (key : string)
    (restval : value) : value :=
  match List.find (fun item => String.eqb (fst item) key) rowdict with
  | Some item => snd item
  | None => restval
  end.

(** [DictWriter._dict_to_list], with [restval] the empty string and
    [extrasaction] ["raise"]. The keys the message lists are those of a
    set difference, here in the order of the dictionary. *)
Definition DictWriter_dict_to_list (fieldnames : list string)
    (rowdict : list (string * value)) : result (list value) :=
  let wrong_fields :=
    filter (fun key => key ∉ fieldnames) (map fst rowdict) in
  match wrong_fields with
  | [] => Ok (map (fun key => dict_get rowdict key (VStr "")) fieldnames)
  | _ =>
      Raise (Exn ValueError
        ("dict contains fields not in fieldnames: "
           +:+ String.concat ", " (map repr wrong_fields)))
  end.

(** [DictWriter.writerow]: the text written. *)
Definition DictWriter_writerow (fieldnames : list string)
    (rowdict : list (string * value)) : result string :=
  row ← DictWriter_dict_to_list fieldnames rowdict;
  Ok (writer_writerow row).

(** [DictWriter.writeheader]. *)
Definition DictWriter_writeheader (fieldnames : list string)
  : result string :=
  DictWriter_writerow fieldnames (zip fieldnames (map VStr fieldnames)).

(** Lines 216-217: the loop over the rows, the state being the text
    written so far; it stops at the first row that raises. *)
Fixpoint write_rows (fieldnames : list string)
    (trades : list CgtCalculatorTrade.t) (text : string)
  : string * option exn :=
  match trades with
  | [] => (text, None)
  | trade :: trades' =>
      match DictWriter_writerow fieldnames (asdict trade) with
      | Ok line => write_rows fieldnames trades' (text +:+ line)
      | Raise e => (text, Some e)
      end
  end.

(** Lines 202-220: the lines printed, and the file left behind. *)
Definition save_cgt_trades_to_csv (disk : Disk)
    (trades : list CgtCalculatorTrade.t) (filename : string)
  : list string * option (string * string) :=
  match trades with
  | [] => (["No trades to write to CSV."], None)
  | first :: _ =>
      let fieldnames := map fst (asdict first) in
      match open_w disk filename with
      | Raise e =>
          (["An error occurred while writing to the CSV file: "
              +:+ exn_str e], None)
      | Ok _ =>
          let '(text, failure) :=
            match DictWriter_writeheader fieldnames with
            | Ok header => write_rows fieldnames trades header
            | Raise e => ("", Some e)
            end in
          match failure with
          | None =>
              (["Trades successfully saved to " +:+ filename],
               Some (filename, text))
          | Some e =>
              (["An error occurred while writing to the CSV file: "
                  +:+ exn_str e], Some (filename, text))
          end
      end
  end.

(** Line 222: the script. *)
Definition main (fs : FileSystem) (disk : Disk) : Run :=
  let '(trades, stdout) := get_trades_from_xmls fs in
  match trades with
  | Raise e => {| raised := Some e; printed := stdout; written := None |}
  | Ok trades =>
      let '(lines, file) :=
        save_cgt_trades_to_csv disk trades "trades.csv" in
      {| raised := None; printed := stdout ++ lines; written := file |}
  end.

(** The text of a file that holds the header, then the given rows, each
    with its seven values in the order of the header. *)
Definition csv_text (trades : list CgtCalculatorTrade.t) : string :=
  fold_left
    (fun text trade => text +:+ writer_writerow (map snd (asdict trade)))
    trades
    (writer_writerow
       (map VStr
          ["side"; "date"; "company"; "shares"; "price"; "charges"; "tax"])).

End Saving.

(* ===================================================================== *)
(** ** More examples *)

Module Samples.

(** [str] on the floats of the example rows; any other float is answered
    as a NaN is. *)
Definition float_text (x : float) : string :=
  let table :=
    [("150.0", "150.0"); ("1.0", "1.0"); ("237", "237.0");
     ("1.185", "1.185"); ("70", "70.0"); ("0", "0.0"); ("102", "102.0");
     ("4", "4.0")] in
  match List.find (fun entry => feq (Plain.lit (fst entry)) x) table with
  | Some entry => snd entry
  | None => "nan"
  end.

Definition value_text (v : value) : string :=
  match v with
  | VNone => ""
  | VStr s => s
  | VInt n => NilZero.string_of_int (Z.to_int n)
  | VFloat x => float_text x
  end.

(** [writerow] on values whose texts need no quoting. *)
Definition writerow (row : list value) : string :=
  String.concat "," (map value_text row) +:+ String "013" (String "010" "").

Definition csv_writer : CsvWriter := Build_CsvWriter writerow.

(** A disk where [trades.csv] can be written, and one where it cannot. *)
Definition writable : Disk :=
  {| open_w path := Ok tt |}.

Definition read_only : Disk :=
  {| open_w path :=
       Raise (Exn OSError
         ("[Errno 13] Permission denied: " +:+ Plain.repr path)) |}.

(** A sale whose quantity is the negative of a purchase. *)
Definition vod_sale : Trade.t := with_quantity (Plain.lit "-5") Plain.vod_trade.

(** A lot element whose commission is not a number, and one whose
    quantity is not. *)
Definition lot_elem : Element :=
  Plain.elem "Lot"
    [("symbol", "SAP"); ("quantity", "3"); ("tradePrice", "120");
     ("fxRateToBase", "0.85"); ("ibCommission", "n/a")] [].

Definition bad_lot_elem : Element :=
  Plain.elem "Lot"
    [("symbol", "SAP"); ("quantity", "three"); ("tradePrice", "120");
     ("fxRateToBase", "0.85")] [].

Definition bad_lot_root : Element :=
  Plain.elem "FlexQueryResponse" []
    [Plain.elem "FlexStatements" [("count", "1")]
       [Plain.elem "FlexStatement" []
          [Plain.elem "Trades" [] [Plain.aapl_trade_elem; bad_lot_elem]]]].

(** A document with a second statement collection and a second trade
    block, both without effect. *)
Definition siblings_root : Element :=
  Plain.elem "FlexQueryResponse" [("queryName", "cgt"); ("type", "AF")]
    [Plain.elem "Note" [] [];
     Plain.elem "FlexStatements" [("count", "1")]
       [Plain.elem "FlexStatement" [("accountId", "U1")]
          [Plain.elem "Trades" [] [Plain.aapl_trade_elem];
           Plain.elem "Trades" [] [Plain.bad_quantity_trade_elem]]];
     Plain.elem "FlexStatements" [] []].

(** A statement collection that declares five statements and holds
    one. *)
Definition miscount_elem : Element :=
  Plain.elem "FlexStatements" [("count", "5")]
    [Plain.elem "FlexStatement" [("accountId", "U1")]
       [Plain.elem "Trades" [] []]].

Definition miscount_root : Element :=
  Plain.elem "FlexQueryResponse" [("queryName", "cgt"); ("type", "AF")]
    [miscount_elem].

Definition miscount_doc : FlexQueryResponse.t :=
  Plain.document (Some (FlexStatements.mk 5
    [Plain.statement "U1" None (Some (Trades.mk [] []))])).

(** A trade whose price is an infinity and whose rate is zero. *)
Definition nan_price_trade_elem : Element :=
  Plain.elem "Trade"
    [("symbol", "AAPL"); ("quantity", "1"); ("tradePrice", "inf");
     ("currency", "USD"); ("fxRateToBase", "0");
     ("assetCategory", "STK"); ("ibCommission", "1");
     ("ibCommissionCurrency", "GBP"); ("tradeDate", "2024-01-05")] [].

Definition nan_price_trade : Trade.t :=
  Trade.mk (Some "AAPL") None None (Plain.lit "1") (Plain.lit "inf")
    (Some "USD") (Plain.lit "0") (Some "STK") (Plain.lit "1") (Some "GBP")
    (Some "2024-01-05").

Definition nan_price_row : CgtCalculatorTrade.t :=
  CgtCalculatorTrade.mk "BUY" (Some "2024-01-05") (Some "AAPL") 1
    S754_nan (Plain.lit "1") 0.

(** A file system that differs from [Plain.files] in a file that is not
    XML. *)
Definition other_notes (names : list string) : FileSystem := {|
  listdir := listdir (Plain.files names);
  read_text path :=
    if String.eqb path "data/notes.txt" then Ok "forget"
    else read_text (Plain.files names) path;
|}.

End Samples.

(* ===================================================================== *)
(** * Properties *)

(** ** Results and loops *)

Ltac unfold_result :=
  unfold mbind, result_bind, mret, result_ret in *.

Lemma bind_Ok_inv {A B} (m : result A) (f : A -> result B) (b : B) :
  (a ← m; f a) = Ok b -> exists a, m = Ok a /\ f a = Ok b.
Proof. unfold_result. destruct m as [a|e]; [eauto | discriminate]. Qed.

Lemma bind_Raise_l {A B} (m : result A) (f : A -> result B) (e : exn) :
  m = Raise e -> (a ← m; f a) = Raise e.
Proof. intros ->. reflexivity. Qed.

Lemma for_each_app {A S} (body : S -> A -> result S) (l1 l2 : list A) s :
  for_each body (l1 ++ l2) s = (s' ← for_each body l1 s; for_each body l2 s').
Proof.
  revert s. induction l1 as [|x l1 IH]; intros s; simpl; [reflexivity|].
  unfold_result. destruct (body s x); [apply IH | reflexivity].
Qed.

(** A loop whose body raises at one of its elements raises. *)
Lemma for_each_raises {A S} (body : S -> A -> result S) (l : list A) x :
  x ∈ l -> (forall s, is_Ok (body s x) = false) ->
  forall s, is_Ok (for_each body l s) = false.
Proof.
  intros Hx Hbody. induction l as [|y l IH]; intros s.
  - inversion Hx.
  - simpl. unfold_result. apply elem_of_cons in Hx as [->|Hx].
    + specialize (Hbody s). destruct (body s y); [discriminate | reflexivity].
    + destruct (body s y); [by apply IH | reflexivity].
Qed.

(** A loop that appends the rows of each element: it returns exactly when
    every element is admissible, and then with the rows of the elements in
    the order of the elements. *)
Lemma for_each_rows {A B R} (rel : B -> R -> Prop) (P : A -> Prop)
    (items : A -> list B) (body : list R -> A -> result (list R)) :
  (forall acc a res,
      body acc a = Ok res <->
      P a /\ exists rows, res = acc ++ rows /\ Forall2 rel (items a) rows) ->
  forall l acc res,
    for_each body l acc = Ok res <->
    Forall P l /\
    exists rows, res = acc ++ rows /\ Forall2 rel (l ≫= items) rows.
Proof.
  intros Hbody. induction l as [|a l IH]; intros acc res; cbn [for_each].
  - split.
    + intros [= <-]. split; [constructor|].
      exists []. split; [by rewrite app_nil_r | constructor].
    + intros [_ (rows & -> & Hrows)].
      apply Forall2_nil_inv_l in Hrows as ->. by rewrite app_nil_r.
  - rewrite bind_cons. split.
    + intros H. apply bind_Ok_inv in H as (s' & Hs' & Hrest).
      apply Hbody in Hs' as (HP & r1 & -> & Hr1).
      apply IH in Hrest as (HPl & r2 & -> & Hr2).
      split; [by constructor|].
      exists (r1 ++ r2). split; [by rewrite app_assoc | by apply Forall2_app].
    + intros [HP (rows & -> & Hrows)].
      apply Forall_cons in HP as [HPa HPl].
      apply Forall2_app_inv_l in Hrows as (r1 & r2 & Hr1 & Hr2 & ->).
      assert (body acc a = Ok (acc ++ r1)) as Ha by (apply Hbody; eauto).
      unfold_result. rewrite Ha. apply IH. split; [done|].
      exists r2. split; [by rewrite app_assoc | done].
Qed.

(** The same for a loop [for x in l: out.append(f(x))]. *)
Lemma append_each_Ok {A} (f : Element -> result A) elems res :
  append_each f elems = Ok res <-> Forall2 (fun x a => f x = Ok a) elems res.
Proof.
  unfold append_each.
  rewrite (for_each_rows (fun x a => f x = Ok a) (fun _ => True)
             (fun x => [x])).
  - assert (elems ≫= (fun x => [x]) = elems) as ->.
    { induction elems as [|x l IH]; [done|]. rewrite bind_cons, IH. done. }
    split.
    + intros [_ (rows & -> & Hr)]. done.
    + intros Hr. split; [by apply Forall_true|]. by exists res.
  - intros acc a r. split.
    + intros Hr. apply bind_Ok_inv in Hr as (y & Hy & [= <-]).
      split; [done|]. exists [y]. split; [done|]. by repeat constructor.
    + intros [_ (rows & -> & Hr)].
      apply Forall2_cons_inv_l in Hr as (y & k & Hy & Hk & ->).
      apply Forall2_nil_inv_l in Hk as ->.
      unfold_result. by rewrite Hy.
Qed.

Lemma append_each_raises {A} (f : Element -> result A) elems x :
  x ∈ elems -> is_Ok (f x) = false -> is_Ok (append_each f elems) = false.
Proof.
  intros Hx Hf. unfold append_each. apply for_each_raises with (x := x).
  - done.
  - intros s. unfold_result. destruct (f x); [discriminate | reflexivity].
Qed.

(** ** Floats *)

Lemma fabs_not_negative (x : float) : flt (fabs x) fzero = false.
Proof. by destruct x. Qed.

Lemma fabs_nan_or_nonnegative (x : float) :
  is_nan (fabs x) = true \/ fle fzero (fabs x) = true.
Proof. destruct x; simpl; auto. Qed.

Lemma fzero_le_not_lt (x : float) : fle fzero x = true -> flt x fzero = false.
Proof. by destruct x as [| [|] | | [|] ? ?]. Qed.

Lemma int_of_float_Ok_finite (x : float) (n : Z) :
  int_of_float x = Ok n -> is_finite x = true.
Proof. by destruct x. Qed.

Lemma int_of_float_total (x : float) :
  is_finite x = true -> exists n, int_of_float x = Ok n.
Proof. destruct x; simpl; intros; try discriminate; eauto. Qed.

Lemma is_finite_fabs (x : float) : is_finite (fabs x) = is_finite x.
Proof. by destruct x. Qed.

Lemma is_nan_fabs (x : float) : is_nan (fabs x) = is_nan x.
Proof. by destruct x. Qed.

(** Shifting to the right keeps a mantissa that is not negative so. *)
Lemma shr_1_nonneg (mrs : shr_record) :
  0 <= shr_m mrs -> 0 <= shr_m (shr_1 mrs).
Proof. destruct mrs as [[|[p|p|]|[p|p|]] r s]; simpl; lia. Qed.

Lemma iter_shr_1_nonneg (p : positive) (mrs : shr_record) :
  0 <= shr_m mrs -> 0 <= shr_m (SpecFloat.iter_pos shr_1 p mrs).
Proof.
  revert mrs. induction p as [p IH|p IH|]; intros mrs Hm; simpl.
  - by apply IH, IH, shr_1_nonneg.
  - by apply IH, IH.
  - by apply shr_1_nonneg.
Qed.

Lemma shr_fexp_nonneg (m e : Z) (l : location) :
  0 <= m -> 0 <= shr_m (fst (shr_fexp prec emax m e l)).
Proof.
  intros Hm. unfold shr_fexp, shr.
  assert (0 <= shr_m (shr_record_of_loc m l)) as Hrec
    by (by destruct l as [|[| |]]).
  destruct (fexp prec emax (Zdigits2 m + e) - e) as [|p|p]; simpl; [done| |done].
  by apply iter_shr_1_nonneg.
Qed.

Lemma round_nearest_even_nonneg (m : Z) (l : location) :
  0 <= m -> 0 <= round_nearest_even m l.
Proof.
  intros Hm. destruct l as [|[| |]]; simpl; try lia.
  destruct (Z.even m); lia.
Qed.

(** Rounding a mantissa that is not negative never gives a NaN. *)
Lemma binary_round_aux_not_nan (s : bool) (m e : Z) (l : location) :
  0 <= m -> is_nan (binary_round_aux prec emax s m e l) = false.
Proof.
  intros Hm. unfold binary_round_aux.
  pose proof (shr_fexp_nonneg m e l Hm) as H1.
  destruct (shr_fexp prec emax m e l) as [mrs e']. simpl in H1.
  pose proof (shr_fexp_nonneg
                (round_nearest_even (shr_m mrs) (loc_of_shr_record mrs))
                e' loc_Exact
                (round_nearest_even_nonneg _ _ H1)) as H2.
  destruct (shr_fexp prec emax _ e' loc_Exact) as [mrs' e'']. simpl in H2.
  destruct (shr_m mrs') as [|q|q]; [done| |lia].
  by destruct (e'' <=? emax - prec)%Z.
Qed.

(** The product of two finite floats is a number. *)
Lemma fmul_finite_not_nan (x y : float) :
  is_finite x = true -> is_finite y = true -> is_nan (fmul x y) = false.
Proof.
  destruct x as [sx|sx| |sx mx ex], y as [sy|sy| |sy my ey]; try done.
  intros _ _. apply binary_round_aux_not_nan. lia.
Qed.

(** [int] of the absolute value is the truncation of the magnitude. *)
Lemma int_of_fabs_truncates (x : float) (n : Z) :
  int_of_float (fabs x) = Ok n -> n = truncated_magnitude x.
Proof.
  destruct x as [s| s | |s m e]; simpl; try discriminate.
  - by intros [= <-].
  - intros [= <-]. unfold truncated_magnitude, Qtruncate.
    assert (forall z, 0 <= z -> Z.abs (cond_Zopp s z) = z) as Habs
      by (intros z Hz; destruct s; simpl; lia).
    destruct e as [|p|p]; simpl float_value; simpl Qabs; simpl Qnum;
      simpl Qden.
    + rewrite Z.quot_1_r, Habs, Z.shiftl_mul_pow2; lia.
    + rewrite Z.quot_1_r, Habs, Z.shiftl_mul_pow2; lia.
    + rewrite Habs by lia.
      change (Z.shiftl (Z.pos m) (Z.neg p))
        with (Z.shiftr (Z.pos m) (Z.pos p)).
      rewrite Z.shiftr_div_pow2 by lia.
      rewrite Pos2Z.inj_pow. rewrite Z.quot_div_nonneg; lia.
Qed.

(** ** [convert] *)

Lemma convert_Ok (t : Trade.t) (r : CgtCalculatorTrade.t) :
  convert t = Ok r <->
  exists n, int_of_float (fabs (Trade.quantity t)) = Ok n /\
    r = CgtCalculatorTrade.mk (Trade.side t) (Trade.tradeDate t)
          (Trade.symbol t) n (Trade.tradePriceInBaseCurrency t)
          (Trade.ibCommissionInBaseCurrency t) 0.
Proof.
  unfold convert. unfold_result.
  destruct (int_of_float (fabs (Trade.quantity t))) as [n|e].
  - split; [intros [= <-]; eauto | intros (n' & [= <-] & ->); done].
  - split; [discriminate | intros (n' & [=] & _)].
Qed.

Lemma convert_total (t : Trade.t) :
  is_finite (Trade.quantity t) = true -> exists r, convert t = Ok r.
Proof.
  intros Hq. rewrite <- is_finite_fabs in Hq.
  apply int_of_float_total in Hq as [n Hn].
  eexists. apply convert_Ok. eauto.
Qed.

Lemma convert_Ok_finite (t : Trade.t) (r : CgtCalculatorTrade.t) :
  convert t = Ok r -> is_finite (Trade.quantity t) = true.
Proof.
  intros (n & Hn & _)%convert_Ok.
  apply int_of_float_Ok_finite in Hn. by rewrite is_finite_fabs in Hn.
Qed.

Lemma convert_raises (t : Trade.t) :
  is_finite (Trade.quantity t) = false -> is_Ok (convert t) = false.
Proof.
  intros Hq. destruct (convert t) as [r|e] eqn:E; [|done].
  apply convert_Ok_finite in E. congruence.
Qed.

(** ** The fields of a converted row *)

(** C2: the charges of the row of a trade are
    [abs(ibCommission) * fxRateToBase] when the trade's
    [ibCommissionCurrency] equals the trade's own [currency], and
    [abs(ibCommission)] otherwise. The account of the statement takes no
    part: the rows of a statement are the same under any account
    information. *)
Theorem convert_charges (t : Trade.t) (r : CgtCalculatorTrade.t) :
  convert t = Ok r ->
  CgtCalculatorTrade.charges r =
    (if decide (Trade.ibCommissionCurrency t = Trade.currency t)
     then fmul (fabs (Trade.ibCommission t)) (Trade.fxRateToBase t)
     else fabs (Trade.ibCommission t)) /\
  forall a statement rows,
    add_statement rows (with_account a statement) =
    add_statement rows statement.
Proof.
  intros (n & _ & ->)%convert_Ok. split; [reflexivity|].
  intros a statement rows. reflexivity.
Qed.

Lemma convert_charges_witness :
  CgtCalculatorTrade.charges Plain.msft_row =
    fmul (fabs (Plain.lit "-1.5")) (Plain.lit "0.79") /\
  CgtCalculatorTrade.charges Plain.sap_row = fabs (Plain.lit "-4").
Proof.
  split.
  - exact (proj1 (convert_charges Plain.msft_trade Plain.msft_row eq_refl)).
  - exact (proj1 (convert_charges Plain.sap_trade Plain.sap_row eq_refl)).
Defined.

(** C3: the side of the row of a trade is ["SELL"] exactly when the
    quantity is less than zero, and ["BUY"] for every quantity greater
    than or equal to zero, a zero of either sign included. *)
Theorem convert_side (t : Trade.t) (r : CgtCalculatorTrade.t) :
  convert t = Ok r ->
  (CgtCalculatorTrade.side r = "SELL" <->
   flt (Trade.quantity t) fzero = true) /\
  (fle fzero (Trade.quantity t) = true ->
   CgtCalculatorTrade.side r = "BUY") /\
  (forall s, Trade.quantity t = S754_zero s ->
   CgtCalculatorTrade.side r = "BUY").
Proof.
  intros (n & _ & ->)%convert_Ok. simpl. unfold Trade.side.
  split; [|split].
  - destruct (flt (Trade.quantity t) fzero); split; done.
  - intros Hle. by rewrite (fzero_le_not_lt _ Hle).
  - intros s ->. reflexivity.
Qed.

Lemma convert_side_witness :
  CgtCalculatorTrade.side Plain.zero_row = "BUY" /\
  CgtCalculatorTrade.side Plain.aapl_row = "SELL".
Proof.
  split.
  - exact (proj1 (proj2 (convert_side Plain.zero_trade Plain.zero_row
                           eq_refl)) eq_refl).
  - exact (proj2 (proj1 (convert_side Plain.aapl_trade Plain.aapl_row
                           eq_refl)) eq_refl).
Defined.

(** C4, as stated, fails: for a trade price of [inf] and a rate of [0]
    the product is not a number, and so is the price of the row, which is
    then not greater than or equal to zero. *)
Lemma convert_price_counterexample :
  @parse_trade Plain.builtins Samples.nan_price_trade_elem
    = Ok Samples.nan_price_trade /\
  convert Samples.nan_price_trade = Ok Samples.nan_price_row /\
  CgtCalculatorTrade.price Samples.nan_price_row = S754_nan /\
  fle fzero (CgtCalculatorTrade.price Samples.nan_price_row) = false.
Proof. repeat split; vm_compute; reflexivity. Qed.

(** C4, amended: the price of the row of a trade is
    [abs(tradePrice * fxRateToBase)]; it is never less than zero, whatever
    the direction of the trade and the signs of the inputs; it is greater
    than or equal to zero whenever it is a number, and it is one whenever
    the trade price and the rate are finite. *)
Theorem convert_price (t : Trade.t) (r : CgtCalculatorTrade.t) :
  convert t = Ok r ->
  CgtCalculatorTrade.price r =
    fabs (fmul (Trade.tradePrice t) (Trade.fxRateToBase t)) /\
  flt (CgtCalculatorTrade.price r) fzero = false /\
  (is_nan (CgtCalculatorTrade.price r) = true \/
   fle fzero (CgtCalculatorTrade.price r) = true) /\
  (is_nan (CgtCalculatorTrade.price r) = false ->
   fle fzero (CgtCalculatorTrade.price r) = true) /\
  (is_finite (Trade.tradePrice t) = true ->
   is_finite (Trade.fxRateToBase t) = true ->
   is_nan (CgtCalculatorTrade.price r) = false /\
   fle fzero (CgtCalculatorTrade.price r) = true).
Proof.
  intros (n & _ & ->)%convert_Ok. simpl.
  unfold Trade.tradePriceInBaseCurrency.
  set (product := fmul (Trade.tradePrice t) (Trade.fxRateToBase t)).
  pose proof (fabs_nan_or_nonnegative product) as Hsign.
  split; [reflexivity|]. split; [apply fabs_not_negative|].
  split; [exact Hsign|]. split.
  - intros Hnum. destruct Hsign as [Hnan|Hle]; [congruence | done].
  - intros Hp Hfx.
    assert (is_nan (fabs product) = false) as Hnum
      by (rewrite is_nan_fabs; by apply fmul_finite_not_nan).
    split; [done|]. destruct Hsign as [Hnan|Hle]; [congruence | done].
Qed.

Lemma convert_price_witness :
  CgtCalculatorTrade.price Plain.msft_row =
    fabs (fmul (Plain.lit "300") (Plain.lit "0.79")) /\
  flt (CgtCalculatorTrade.price Plain.msft_row) fzero = false /\
  fle fzero (CgtCalculatorTrade.price Plain.msft_row) = true.
Proof.
  pose proof (convert_price Plain.msft_trade Plain.msft_row eq_refl)
    as (Hprice & Hsign & _ & _ & Hfinite).
  exact (conj Hprice (conj Hsign (proj2 (Hfinite eq_refl eq_refl)))).
Defined.

(** C5: the shares of the row of a trade are the absolute value of the
    quantity truncated toward zero; every trade of a finite quantity,
    fractional or not, has a row, and a quantity of -12.7 gives 12
    shares. *)
Theorem convert_shares (t : Trade.t) :
  (forall r, convert t = Ok r ->
     CgtCalculatorTrade.shares r = truncated_magnitude (Trade.quantity t)) /\
  (is_finite (Trade.quantity t) = true -> exists r, convert t = Ok r) /\
  (Trade.quantity t = Plain.lit "-12.7" ->
   exists r, convert t = Ok r /\ CgtCalculatorTrade.shares r = 12).
Proof.
  split; [|split].
  - intros r (n & Hn & ->)%convert_Ok. simpl.
    by apply int_of_fabs_truncates.
  - apply convert_total.
  - intros Hq. eexists. split.
    + apply convert_Ok. eexists. split; [|reflexivity]. by rewrite Hq.
    + reflexivity.
Qed.

Lemma convert_shares_witness :
  CgtCalculatorTrade.shares Plain.msft_row = 12 /\
  truncated_magnitude (Plain.lit "-12.7") = 12 /\
  exists r, convert Plain.msft_trade = Ok r /\
            CgtCalculatorTrade.shares r = 12.
Proof.
  pose proof (convert_shares Plain.msft_trade) as (Hpart & Htotal & Hlit).
  split; [|split].
  - reflexivity.
  - exact (eq_sym (Hpart Plain.msft_row eq_refl)).
  - exact (Hlit eq_refl).
Defined.

(** ** The loops of [get_trades_from_xmls] *)

Lemma kept_bind {A} (f : A -> list Trade.t) (l : list A) :
  kept (l ≫= f) = l ≫= (fun x => kept (f x)).
Proof.
  unfold kept. induction l as [|x l IH]; [done|].
  by rewrite !bind_cons, filter_app, IH.
Qed.

Lemma kept_singletons (l : list Trade.t) :
  l ≫= (fun txn => kept [txn]) = kept l.
Proof.
  rewrite <- kept_bind. f_equal.
  induction l as [|x l IH]; [done|]. by rewrite bind_cons, IH.
Qed.

Lemma add_trade_cash rows txn :
  Trade.assetCategory txn = Some "CASH" -> add_trade rows txn = Ok rows.
Proof. intros Hc. unfold add_trade. by rewrite decide_True. Qed.

Lemma add_trade_other rows txn :
  Trade.assetCategory txn ≠ Some "CASH" ->
  add_trade rows txn = (row ← convert txn; Ok (rows ++ [row])).
Proof. intros Hc. unfold add_trade. by rewrite decide_False. Qed.

Lemma add_trade_Ok rows txn res :
  add_trade rows txn = Ok res <->
  True /\ exists new, res = rows ++ new /\ Forall2 row_of (kept [txn]) new.
Proof.
  unfold kept. rewrite filter_cons, filter_nil.
  destruct (decide (Trade.assetCategory txn = Some "CASH")) as [Hc|Hc].
  - rewrite add_trade_cash by done. rewrite decide_False by auto. split.
    + intros [= <-]. split; [done|]. exists []. by rewrite app_nil_r.
    + intros [_ (new & -> & ->%Forall2_nil_inv_l)]. by rewrite app_nil_r.
  - rewrite add_trade_other by done. rewrite decide_True by done. split.
    + intros (row & Hrow & [= <-])%bind_Ok_inv. split; [done|].
      exists [row]. split; [done|]. by repeat constructor.
    + intros [_ (new & -> & Hnew)].
      apply Forall2_cons_inv_l in Hnew as (row & k & Hrow & Hk & ->).
      apply Forall2_nil_inv_l in Hk as ->.
      unfold row_of in Hrow. unfold_result. by rewrite Hrow.
Qed.

Lemma add_statement_Ok rows statement res :
  add_statement rows statement = Ok res <->
  is_Some (FlexStatement.trades statement) /\
  exists new, res = rows ++ new /\
              Forall2 row_of (kept (trades_of statement)) new.
Proof.
  unfold add_statement, trades_of.
  destruct (FlexStatement.trades statement) as [ts|].
  - rewrite (for_each_rows _ _ _ _ add_trade_Ok), kept_singletons.
    split; [intros [_ ?]; eauto | intros [_ ?]; split; [by apply Forall_true | done]].
  - split; [discriminate | by intros [[? [=]] _]].
Qed.

Lemma add_document_Ok rows data res :
  add_document rows data = Ok res <->
  (is_Some (FlexQueryResponse.flexStatements data) /\
   Forall (fun statement => is_Some (FlexStatement.trades statement))
     (statements_of data)) /\
  exists new, res = rows ++ new /\
    Forall2 row_of
      (statements_of data ≫= (fun statement => kept (trades_of statement)))
      new.
Proof.
  unfold add_document, statements_of.
  destruct (FlexQueryResponse.flexStatements data) as [fss|].
  - rewrite (for_each_rows _ _ _ _ add_statement_Ok).
    split; [intros [? ?]; eauto | intros [[_ ?] ?]; done].
  - split; [discriminate | by intros [[[? [=]] _] _]].
Qed.

Lemma kept_traversal parsed_data :
  kept (traversal parsed_data) =
  parsed_data ≫= (fun data =>
    statements_of data ≫= (fun statement => kept (trades_of statement))).
Proof.
  unfold traversal. induction parsed_data as [|d l IH]; [done|].
  rewrite !bind_cons. unfold kept in *.
  rewrite filter_app, IH. f_equal. apply kept_bind.
Qed.

(** [collect_trades] returns exactly when every owner is present and
    every kept trade converts; the rows are then the rows of the kept
    trades, in the order of the traversal. *)
Lemma collect_trades_Ok parsed_data rows :
  collect_trades parsed_data = Ok rows <->
  owners_present parsed_data /\
  Forall2 row_of (kept (traversal parsed_data)) rows.
Proof.
  unfold collect_trades, owners_present.
  rewrite (for_each_rows _ _ _ _ add_document_Ok), kept_traversal.
  split.
  - intros [? (new & -> & ?)]. done.
  - intros [? ?]. split; [done|]. by exists rows.
Qed.

(** A document without a statement collection, or a statement without a
    trade block, makes the loops raise. *)
Lemma collect_trades_absent_owner parsed_data :
  ~ owners_present parsed_data -> is_Ok (collect_trades parsed_data) = false.
Proof.
  intros Hno. destruct (collect_trades parsed_data) as [rows|e] eqn:E.
  - apply collect_trades_Ok in E as [? _]. done.
  - done.
Qed.

Lemma collect_trades_total parsed_data :
  owners_present parsed_data ->
  Forall (fun txn => is_finite (Trade.quantity txn) = true)
    (kept (traversal parsed_data)) ->
  exists rows, collect_trades parsed_data = Ok rows.
Proof.
  intros Hown Hfin.
  assert (exists rows, Forall2 row_of (kept (traversal parsed_data)) rows)
    as [rows Hrows].
  { induction Hfin as [|txn l Hq _ [rows IH]]; [by exists []|].
    destruct (convert_total txn Hq) as [r Hr].
    exists (r :: rows). by constructor. }
  exists rows. by apply collect_trades_Ok.
Qed.

(** C1: a document without a statement collection makes
    [get_trades_from_xmls] raise [AttributeError], and so does a statement
    without a trade block; only the empty trade block gives no row and no
    error. The documents are the ones [parse_xml] returns for the three
    texts. *)
Theorem absent_owner_raises :
  @parse_xml Plain.builtins Plain.no_collection_text
    = Ok Plain.no_collection_doc /\
  @get_trades_from_xmls Plain.builtins (Plain.files ["none.xml"])
    = (Raise (Exn AttributeError
                "'NoneType' object has no attribute 'flexStatement'"), []) /\
  @parse_xml Plain.builtins Plain.no_trades_text = Ok Plain.no_trades_doc /\
  @get_trades_from_xmls Plain.builtins (Plain.files ["bare.xml"])
    = (Raise (Exn AttributeError
                "'NoneType' object has no attribute 'trade'"), []) /\
  @parse_xml Plain.builtins Plain.empty_trades_text
    = Ok Plain.empty_trades_doc /\
  @get_trades_from_xmls Plain.builtins (Plain.files ["empty.xml"; "aapl.xml"])
    = (Ok [Plain.aapl_row], []).
Proof. repeat split; vm_compute; reflexivity. Qed.

(** C6, as stated, fails: a trade of category [STK] whose quantity is an
    infinity passes the filter and has no row, [convert] raising
    [OverflowError]. *)
Lemma cash_filter_counterexample :
  @parse_trade Plain.builtins Plain.inf_quantity_trade_elem
    = Ok Plain.inf_quantity_trade /\
  add_trade [] Plain.inf_quantity_trade
    = Raise (Exn OverflowError "cannot convert float infinity to integer") /\
  ~ (Trade.assetCategory Plain.inf_quantity_trade ≠ Some "CASH" ->
     exists r, add_trade [] Plain.inf_quantity_trade = Ok [r]).
Proof.
  split; [vm_compute; reflexivity|]. split; [vm_compute; reflexivity|].
  intros Hrow. destruct Hrow as [r Hr]; [discriminate|].
  vm_compute in Hr. discriminate.
Qed.

(** C6, amended: a trade whose category is ["CASH"] adds no row; a trade
    of any other category passes the filter and, its quantity being
    finite, adds exactly one row, its own; and the rows [collect_trades]
    returns are, one for one, the rows of the trades of the other
    categories. *)
Theorem cash_filter (txn : Trade.t) (rows : list CgtCalculatorTrade.t) :
  (Trade.assetCategory txn = Some "CASH" -> add_trade rows txn = Ok rows) /\
  (Trade.assetCategory txn ≠ Some "CASH" ->
   is_finite (Trade.quantity txn) = true ->
   exists r, convert txn = Ok r /\ add_trade rows txn = Ok (rows ++ [r])) /\
  (forall parsed_data res,
     collect_trades parsed_data = Ok res ->
     Forall2 row_of (kept (traversal parsed_data)) res /\
     length res = length (kept (traversal parsed_data))).
Proof.
  split; [|split].
  - apply add_trade_cash.
  - intros Hc Hq. destruct (convert_total txn Hq) as [r Hr].
    exists r. split; [done|].
    rewrite add_trade_other by done. unfold_result. by rewrite Hr.
  - intros parsed_data res [_ Hres]%collect_trades_Ok.
    split; [done|]. symmetry. by eapply Forall2_length.
Qed.

Lemma cash_filter_witness :
  add_trade [Plain.msft_row] Plain.cash_trade = Ok [Plain.msft_row] /\
  (exists r, convert Plain.vod_trade = Ok r /\
     add_trade [Plain.msft_row] Plain.vod_trade = Ok [Plain.msft_row; r]) /\
  length [Plain.msft_row; Plain.vod_row; Plain.sap_row] =
  length (kept (traversal [Plain.mixed_doc])).
Proof.
  split; [|split].
  - exact (proj1 (cash_filter Plain.cash_trade [Plain.msft_row]) eq_refl).
  - apply (proj1 (proj2 (cash_filter Plain.vod_trade [Plain.msft_row]))).
    + discriminate.
    + reflexivity.
  - exact (proj2 (proj2 (proj2 (cash_filter Plain.cash_trade []))
                    [Plain.mixed_doc]
                    [Plain.msft_row; Plain.vod_row; Plain.sap_row]
                    eq_refl)).
Defined.

(** C8: the rows [collect_trades] returns follow the nested traversal,
    documents in the order given, statements in parsed order within each
    document, trades in parsed order within each statement: the i-th row
    is the row of the i-th trade of the traversal that is not cash. *)
Theorem rows_in_traversal_order (parsed_data : list FlexQueryResponse.t)
    (rows : list CgtCalculatorTrade.t) :
  collect_trades parsed_data = Ok rows ->
  Forall2 row_of (kept (traversal parsed_data)) rows /\
  (forall i txn, kept (traversal parsed_data) !! i = Some txn ->
     exists r, rows !! i = Some r /\ convert txn = Ok r) /\
  (forall i r, rows !! i = Some r ->
     exists txn, kept (traversal parsed_data) !! i = Some txn /\
                 convert txn = Ok r).
Proof.
  intros [_ Hrows]%collect_trades_Ok. split; [done|]. split.
  - intros i txn Hi.
    destruct (Forall2_lookup_l _ _ _ _ _ Hrows Hi) as (r & Hr & Hrow).
    by exists r.
  - intros i r Hi.
    destruct (Forall2_lookup_r _ _ _ _ _ Hrows Hi) as (txn & Ht & Hrow).
    by exists txn.
Qed.

Lemma rows_in_traversal_order_witness :
  traversal [Plain.mixed_doc; Plain.aapl_doc] =
    [Plain.msft_trade; Plain.cash_trade; Plain.vod_trade; Plain.sap_trade;
     Plain.aapl_trade] /\
  Forall2 row_of
    [Plain.msft_trade; Plain.vod_trade; Plain.sap_trade; Plain.aapl_trade]
    [Plain.msft_row; Plain.vod_row; Plain.sap_row; Plain.aapl_row].
Proof.
  split; [reflexivity|].
  exact (proj1 (rows_in_traversal_order [Plain.mixed_doc; Plain.aapl_doc]
           [Plain.msft_row; Plain.vod_row; Plain.sap_row; Plain.aapl_row]
           eq_refl)).
Defined.

(** ** [parse_xml] *)

Section Parsing.
Context `{!Builtins}.

Lemma is_Ok_bind_false_l {A B} (m : result A) (f : A -> result B) :
  is_Ok m = false -> is_Ok (a ← m; f a) = false.
Proof. unfold_result. by destruct m. Qed.

Lemma is_Ok_bind_false_r {A B} (m : result A) (f : A -> result B) :
  (forall a, is_Ok (f a) = false) -> is_Ok (a ← m; f a) = false.
Proof. intros Hf. unfold_result. destruct m; [apply Hf | done]. Qed.

Lemma py_float_raises (x : option string) :
  not_a_float x -> is_Ok (py_float x) = false.
Proof. intros [->|(s & -> & Hs)]; simpl; [done | by rewrite Hs]. Qed.

Lemma py_float_class (x : option string) (e : exn) :
  py_float x = Raise e -> exn_cls e = TypeError \/ exn_cls e = ValueError.
Proof.
  destruct x as [s|]; simpl.
  - destruct (float_of_str s); [discriminate | intros [= <-]; auto].
  - intros [= <-]; auto.
Qed.

(** The commission never makes the parse raise. *)
Lemma commission_or_zero_total (x : option string) :
  exists f, commission_or_zero x = Ok f.
Proof.
  unfold commission_or_zero. destruct (py_float x) as [f|e] eqn:E; [eauto|].
  destruct (py_float_class _ _ E) as [-> | ->]; eauto.
Qed.

Lemma commission_or_zero_fallback (x : option string) :
  not_a_float x -> commission_or_zero x = Ok fzero.
Proof.
  intros Hx. unfold commission_or_zero.
  destruct (py_float x) as [f|e] eqn:E.
  - apply py_float_raises in Hx. by rewrite E in Hx.
  - by destruct (py_float_class _ _ E) as [-> | ->].
Qed.

Lemma parse_trade_raises (trade_elem : Element) :
  not_a_float (get trade_elem "quantity") \/
  not_a_float (get trade_elem "tradePrice") \/
  not_a_float (get trade_elem "fxRateToBase") ->
  is_Ok (parse_trade trade_elem) = false.
Proof.
  intros Hbad. unfold parse_trade.
  apply is_Ok_bind_false_r. intros c.
  destruct Hbad as [Hq | [Hp | Hfx]].
  - apply is_Ok_bind_false_l. by apply py_float_raises.
  - apply is_Ok_bind_false_r. intros q.
    apply is_Ok_bind_false_l. by apply py_float_raises.
  - apply is_Ok_bind_false_r. intros q.
    apply is_Ok_bind_false_r. intros p.
    apply is_Ok_bind_false_l. by apply py_float_raises.
Qed.

(** A trade element that does not parse makes the document fail. *)
Lemma parse_root_raises (root trade_elem : Element) :
  reached_trade root trade_elem ->
  is_Ok (parse_trade trade_elem) = false ->
  is_Ok (parse_root root) = false.
Proof.
  intros (fse & fs & ts & Hfse & Hfs & Hts & Htrade) Hraise.
  unfold parse_root. rewrite Hfse.
  apply is_Ok_bind_false_l. apply is_Ok_bind_false_r. intros n.
  apply is_Ok_bind_false_l.
  apply append_each_raises with (x := fs); [done|].
  unfold parse_statement. apply is_Ok_bind_false_l.
  unfold parse_trades. rewrite Hts.
  apply is_Ok_bind_false_l. by apply append_each_raises with (x := trade_elem).
Qed.

Lemma parse_trade_Ok (trade_elem : Element) (c q p fx : float) :
  commission_or_zero (get trade_elem "ibCommission") = Ok c ->
  py_float (get trade_elem "quantity") = Ok q ->
  py_float (get trade_elem "tradePrice") = Ok p ->
  py_float (get trade_elem "fxRateToBase") = Ok fx ->
  parse_trade trade_elem =
    Ok (Trade.mk (get trade_elem "symbol")
          (get trade_elem "transactionType") (get trade_elem "exchange")
          q p (get trade_elem "currency") fx
          (get trade_elem "assetCategory") c
          (get trade_elem "ibCommissionCurrency")
          (get trade_elem "tradeDate")).
Proof.
  intros Hc Hq Hp Hfx. unfold parse_trade.
  by rewrite Hc, Hq, Hp, Hfx.
Qed.

End Parsing.

(** The charges of a trade whose commission is zero compare equal to
    zero, unless the rate applies and is not finite. *)
Lemma zero_commission_charges (t : Trade.t) :
  Trade.ibCommission t = fzero ->
  is_finite (Trade.fxRateToBase t) = true \/
  Trade.ibCommissionCurrency t ≠ Trade.currency t ->
  feq (Trade.ibCommissionInBaseCurrency t) fzero = true.
Proof.
  intros Hc Hfx. unfold Trade.ibCommissionInBaseCurrency. rewrite Hc.
  destruct (decide (Trade.ibCommissionCurrency t = Trade.currency t))
    as [Heq|Hne]; [|done].
  destruct Hfx as [Hfx|Hne]; [|done].
  by destruct (Trade.fxRateToBase t).
Qed.

(** C10: when the statement collection of a document has no [count] or
    one that [int] rejects, [parse_xml] raises what [int] raises there,
    a [TypeError] or a [ValueError], whatever the rest of the document
    holds. *)
Theorem count_is_mandatory `{!Builtins} (xml_string : string)
    (root flex_statements_elem : Element) :
  fromstring xml_string = inr root ->
  find root "FlexStatements" = Some flex_statements_elem ->
  not_an_int (get flex_statements_elem "count") ->
  exists e, py_int (get flex_statements_elem "count") = Raise e /\
            parse_xml xml_string = Raise e /\
            (exn_cls e = TypeError \/ exn_cls e = ValueError).
Proof.
  intros Hroot Hfind Hcount. unfold parse_xml, parse_root.
  rewrite Hroot, Hfind.
  destruct Hcount as [-> | (s & -> & Hs)]; simpl.
  - eexists. split; [reflexivity|]. split; [reflexivity | by left].
  - rewrite Hs. eexists. split; [reflexivity|].
    split; [reflexivity | by right].
Qed.

Lemma count_is_mandatory_witness :
  exists e,
    @parse_xml Plain.builtins Plain.no_count_text = Raise e /\
    exn_cls e = TypeError.
Proof.
  destruct (@count_is_mandatory Plain.builtins Plain.no_count_text
              Plain.no_count_root (Plain.elem "FlexStatements" [] [])
              eq_refl eq_refl (or_introl eq_refl))
    as (e & Hint & Hparse & _).
  exists e. split; [exact Hparse|].
  injection Hint as <-. reflexivity.
Defined.

(** C7, as stated, fails: a trade without [ibCommission] whose
    [fxRateToBase] is [inf] and whose two currencies agree is parsed, its
    commission being [0.0], and the charges of its row are not a number. *)
Lemma commission_fallback_counterexample :
  get Plain.inf_rate_trade_elem "ibCommission" = None /\
  @parse_trade Plain.builtins Plain.inf_rate_trade_elem
    = Ok Plain.inf_rate_trade /\
  Trade.ibCommission Plain.inf_rate_trade = fzero /\
  convert Plain.inf_rate_trade = Ok Plain.inf_rate_row /\
  CgtCalculatorTrade.charges Plain.inf_rate_row = S754_nan /\
  feq (CgtCalculatorTrade.charges Plain.inf_rate_row) fzero = false.
Proof. repeat split; vm_compute; reflexivity. Qed.

(** C7, amended: a reached trade entry whose [quantity], [tradePrice] or
    [fxRateToBase] is absent or not a number makes the parse of its
    document raise. An [ibCommission] never does: absent or not a number,
    it is taken as [0.0], the trade is parsed whenever its three numeric
    fields are numbers, and the charges of its row compare equal to [0.0]
    when [fxRateToBase] is finite or the commission currency differs from
    the trade's currency. *)
Theorem commission_fallback `{!Builtins} (trade_elem : Element) :
  (forall xml_string root,
     fromstring xml_string = inr root ->
     reached_trade root trade_elem ->
     not_a_float (get trade_elem "quantity") \/
     not_a_float (get trade_elem "tradePrice") \/
     not_a_float (get trade_elem "fxRateToBase") ->
     is_Ok (parse_xml xml_string) = false) /\
  (exists c, commission_or_zero (get trade_elem "ibCommission") = Ok c) /\
  (not_a_float (get trade_elem "ibCommission") ->
   forall q p fx,
     py_float (get trade_elem "quantity") = Ok q ->
     py_float (get trade_elem "tradePrice") = Ok p ->
     py_float (get trade_elem "fxRateToBase") = Ok fx ->
     exists t,
       parse_trade trade_elem = Ok t /\
       Trade.ibCommission t = fzero /\
       Trade.quantity t = q /\ Trade.tradePrice t = p /\
       Trade.fxRateToBase t = fx /\
       forall r,
         convert t = Ok r ->
         is_finite fx = true \/
         Trade.ibCommissionCurrency t ≠ Trade.currency t ->
         feq (CgtCalculatorTrade.charges r) fzero = true).
Proof.
  split; [|split].
  - intros xml_string root Hroot Hreach Hbad.
    unfold parse_xml. rewrite Hroot.
    apply parse_root_raises with (trade_elem := trade_elem); [done|].
    by apply parse_trade_raises.
  - apply commission_or_zero_total.
  - intros Hc q p fx Hq Hp Hfx.
    apply commission_or_zero_fallback in Hc.
    eexists. split; [by apply parse_trade_Ok|].
    repeat (split; [reflexivity|]).
    intros r (n & _ & ->)%convert_Ok Hrate. simpl.
    by apply zero_commission_charges.
Qed.

Lemma commission_fallback_witness :
  is_Ok (@parse_xml Plain.builtins Plain.bad_quantity_text) = false /\
  exists t,
    @parse_trade Plain.builtins Plain.vod_trade_elem = Ok t /\
    Trade.ibCommission t = fzero /\
    feq (CgtCalculatorTrade.charges Plain.vod_row) fzero = true.
Proof.
  split.
  - apply (proj1 (@commission_fallback Plain.builtins
                    Plain.bad_quantity_trade_elem)
             Plain.bad_quantity_text Plain.bad_quantity_root eq_refl).
    + exists (Plain.elem "FlexStatements" [("count", "1")]
                [Plain.elem "FlexStatement" [("accountId", "U1")]
                   [Plain.elem "Trades" []
                      [Plain.bad_quantity_trade_elem]]]),
             (Plain.elem "FlexStatement" [("accountId", "U1")]
                [Plain.elem "Trades" [] [Plain.bad_quantity_trade_elem]]),
             (Plain.elem "Trades" [] [Plain.bad_quantity_trade_elem]).
      split; [reflexivity|]. split; [apply list_elem_of_here|].
      split; [reflexivity | apply list_elem_of_here].
    + left. right. exists "ten". split; reflexivity.
  - destruct (proj2 (proj2 (@commission_fallback Plain.builtins
                              Plain.vod_trade_elem))
                (or_introl eq_refl) (Plain.lit "5") (Plain.lit "70")
                (Plain.lit "1") eq_refl eq_refl eq_refl)
      as (t & Hparse & Hzero & _ & _ & _ & Hcharges).
    exists t. split; [exact Hparse|]. split; [exact Hzero|].
    apply Hcharges.
    + injection Hparse as <-. reflexivity.
    + left. reflexivity.
Defined.

(** ** [process_xml_files] *)

Section Batch.
Context `{!Builtins}.

Lemma list_bind_nil {A B} (f : A -> list B) : [] ≫= f = [].
Proof. reflexivity. Qed.

Lemma process_file_spec fs folder_path parsed stdout filename :
  process_file fs folder_path (parsed, stdout) filename =
  (parsed ++ parsed_of fs folder_path [filename],
   stdout ++ reports_of fs folder_path [filename]).
Proof.
  unfold process_file, parsed_of, reports_of.
  rewrite !bind_cons, !list_bind_nil, !app_nil_r.
  destruct (endswith filename ".xml"); [|by rewrite !app_nil_r].
  fold (outcome fs folder_path filename).
  destruct (outcome fs folder_path filename) as [d|e].
  - by rewrite app_nil_r.
  - rewrite app_nil_r. unfold report. by destruct (exn_cls e).
Qed.

(** The loop over the names keeps what it had, adds the documents that
    parse and prints one line for each name that fails. *)
Lemma process_names_spec fs folder_path names parsed stdout :
  process_names fs folder_path names (parsed, stdout) =
  (parsed ++ parsed_of fs folder_path names,
   stdout ++ reports_of fs folder_path names).
Proof.
  unfold process_names. revert parsed stdout.
  induction names as [|filename names IH]; intros parsed stdout.
  - simpl. by rewrite !app_nil_r.
  - cbn [fold_left]. rewrite process_file_spec, IH.
    unfold parsed_of, reports_of.
    rewrite (bind_cons _ filename names), (bind_cons _ filename names).
    rewrite !bind_cons, !list_bind_nil, !app_nil_r. by rewrite !app_assoc.
Qed.

Lemma parsed_of_app fs folder_path l1 l2 :
  parsed_of fs folder_path (l1 ++ l2) =
  parsed_of fs folder_path l1 ++ parsed_of fs folder_path l2.
Proof. apply bind_app. Qed.

Lemma reports_of_app fs folder_path l1 l2 :
  reports_of fs folder_path (l1 ++ l2) =
  reports_of fs folder_path l1 ++ reports_of fs folder_path l2.
Proof. apply bind_app. Qed.

Lemma parsed_of_elem fs folder_path names filename d :
  filename ∈ names -> endswith filename ".xml" = true ->
  outcome fs folder_path filename = Ok d ->
  d ∈ parsed_of fs folder_path names.
Proof.
  intros Hin Hxml Hd. unfold parsed_of. apply list_elem_of_bind.
  exists filename. split; [|done]. rewrite Hxml, Hd. apply list_elem_of_here.
Qed.

(** [get_trades_from_xmls] collects the rows of the documents that
    parse, in the order [os.listdir] gives their names. *)
Lemma get_trades_from_xmls_spec fs names :
  listdir fs "data" = Ok names ->
  get_trades_from_xmls fs =
  (collect_trades (parsed_of fs "data" names), reports_of fs "data" names).
Proof.
  intros Hdir. unfold get_trades_from_xmls, process_xml_files.
  by rewrite Hdir, process_names_spec.
Qed.

End Batch.

(** C9: a file whose reading or parsing raises does not stop the batch.
    Its failure is printed, with the name of the file and the text of the
    exception, it adds no document, and the names before and after it are
    processed as they are without it: every one of them that parses is in
    the list returned. *)
Theorem failure_is_isolated `{!Builtins} (fs : FileSystem)
    (folder_path : string) (before after : list string) (bad : string)
    (e : exn) :
  listdir fs folder_path = Ok (before ++ bad :: after) ->
  endswith bad ".xml" = true ->
  outcome fs folder_path bad = Raise e ->
  process_xml_files fs folder_path =
    (Ok (parsed_of fs folder_path before ++ parsed_of fs folder_path after),
     reports_of fs folder_path before ++
       report bad e :: reports_of fs folder_path after) /\
  (exists prefix, report bad e = prefix +:+ bad +:+ ": " +:+ exn_str e) /\
  (forall filename d,
     filename ∈ before ++ after -> endswith filename ".xml" = true ->
     outcome fs folder_path filename = Ok d ->
     d ∈ parsed_of fs folder_path before ++ parsed_of fs folder_path after).
Proof.
  intros Hdir Hxml Hbad. split; [|split].
  - unfold process_xml_files. rewrite Hdir, process_names_spec.
    rewrite parsed_of_app, reports_of_app.
    change (bad :: after) with ([bad] ++ after).
    rewrite parsed_of_app, reports_of_app.
    assert (parsed_of fs folder_path [bad] = []) as ->.
    { unfold parsed_of. by rewrite bind_cons, Hxml, Hbad. }
    assert (reports_of fs folder_path [bad] = [report bad e]) as ->.
    { unfold reports_of. by rewrite bind_cons, Hxml, Hbad. }
    reflexivity.
  - unfold report. eauto.
  - intros filename d Hin Hx Hd. rewrite <- parsed_of_app.
    by eapply parsed_of_elem.
Qed.

Lemma failure_is_isolated_witness :
  @process_xml_files Plain.builtins (Plain.files Plain.data_names) "data" =
    (Ok [Plain.aapl_doc; Plain.mixed_doc],
     ["Error parsing XML file broken.xml: syntax error: line 1, column 0";
      "An unexpected error occurred processing locked.xml: [Errno 13] Permission denied: 'data/locked.xml'"]).
Proof.
  exact (proj1 (@failure_is_isolated Plain.builtins
                  (Plain.files Plain.data_names) "data" ["aapl.xml"]
                  ["locked.xml"; "notes.txt"; "mixed.xml"] "broken.xml"
                  (Exn ParseError "syntax error: line 1, column 0")
                  eq_refl eq_refl eq_refl)).
Defined.

(** ** The examples, evaluated *)

(** The literals of the examples are the binary64 values Python reads. *)
Example plain_float_literals :
  Plain.float_of_str "-12.7" = Some (S754_finite true 7149464408450662 (-49)) /\
  Plain.float_of_str "0.1" = Some (S754_finite false 7205759403792794 (-56)) /\
  Plain.float_of_str "150.0" = Some (S754_finite false 5277655813324800 (-45)) /\
  Plain.float_of_str "-0.0" = Some (S754_zero true) /\
  Plain.float_of_str "inf" = Some (S754_infinity false) /\
  Plain.float_of_str "ten" = None /\
  Plain.float_of_str "" = None.
Proof. repeat split; vm_compute; reflexivity. Qed.

Example plain_float_literals_valid :
  forallb (fun s => valid_binary prec emax (Plain.lit s))
    ["-10"; "150.0"; "1.0"; "-12.7"; "300"; "0.79"; "-1.5"; "1000"; "0.85";
     "-2"; "5"; "70"; "3"; "120"; "-4"; "237"; "1.185"; "102"; "4"; "0"]
  = true.
Proof. vm_compute. reflexivity. Qed.

Example parse_xml_examples :
  @parse_xml Plain.builtins Plain.aapl_text = Ok Plain.aapl_doc /\
  @parse_xml Plain.builtins Plain.mixed_text = Ok Plain.mixed_doc /\
  @parse_xml Plain.builtins "not xml"
    = Raise (Exn ParseError "syntax error: line 1, column 0") /\
  @parse_xml Plain.builtins Plain.bad_quantity_text
    = Raise (Exn ValueError "could not convert string to float: 'ten'").
Proof. repeat split; vm_compute; reflexivity. Qed.

(** The scenario of the specification: one sale of ten shares. *)
Example scenario_one_sale :
  @get_trades_from_xmls Plain.builtins (Plain.files ["aapl.xml"])
    = (Ok [CgtCalculatorTrade.mk "SELL" (Some "2024-01-05") (Some "AAPL") 10
             (Plain.lit "150.0") (Plain.lit "1.0") 0], []).
Proof. vm_compute. reflexivity. Qed.

Example scenario_folder :
  @get_trades_from_xmls Plain.builtins (Plain.files Plain.data_names)
    = (Ok [Plain.aapl_row; Plain.msft_row; Plain.vod_row; Plain.sap_row],
       ["Error parsing XML file broken.xml: syntax error: line 1, column 0";
        "An unexpected error occurred processing locked.xml: [Errno 13] Permission denied: 'data/locked.xml'"]).
Proof. vm_compute. reflexivity. Qed.

(* ===================================================================== *)
(** * Further properties *)

(** ** Loops that raise *)

Lemma is_Ok_true {A} (r : result A) : is_Ok r = true <-> exists a, r = Ok a.
Proof.
  destruct r as [a|e]; simpl; split; eauto; try discriminate.
  intros [a [=]].
Qed.

Lemma is_Ok_false {A} (r : result A) :
  is_Ok r = false <-> exists e, r = Raise e.
Proof.
  destruct r as [a|e]; simpl; split; eauto; try discriminate.
  intros [e' [=]].
Qed.

(** The exception of a loop is the exception of its body at one of the
    elements. *)
Lemma for_each_Raise_inv {A S} (body : S -> A -> result S) (l : list A) s e :
  for_each body l s = Raise e -> exists s' x, x ∈ l /\ body s' x = Raise e.
Proof.
  revert s. induction l as [|x l IH]; intros s; simpl; [discriminate|].
  unfold_result. destruct (body s x) as [s'|e'] eqn:E.
  - intros (s'' & y & Hy & Hbody)%IH.
    exists s'', y. split; [by apply elem_of_cons; right | done].
  - intros [= <-]. exists s, x. split; [apply list_elem_of_here | done].
Qed.

Lemma append_each_Raise_inv {A} (f : Element -> result A) elems e :
  append_each f elems = Raise e -> exists x, x ∈ elems /\ f x = Raise e.
Proof.
  intros (out & x & Hx & Hbody)%for_each_Raise_inv.
  exists x. split; [done|]. revert Hbody. unfold_result.
  destruct (f x); [discriminate | by intros [= ->]].
Qed.

Lemma append_each_is_Ok {A} (f : Element -> result A) elems :
  is_Ok (append_each f elems) = true <->
  Forall (fun x => is_Ok (f x) = true) elems.
Proof.
  rewrite is_Ok_true. split.
  - intros [res Hres%append_each_Ok].
    induction Hres as [|x a l k Hx _ IH]; constructor; [|done].
    by rewrite Hx.
  - intros Hall.
    assert (exists res, Forall2 (fun x a => f x = Ok a) elems res)
      as [res Hres].
    { induction Hall as [|x l Hx _ [res IH]]; [by exists []|].
      apply is_Ok_true in Hx as [a Ha]. exists (a :: res). by constructor. }
    exists res. by apply append_each_Ok.
Qed.

(** ** The elements [parse_root] reads *)

Lemma trade_elems_unfold (root : Element) :
  trade_elems root =
  match find root "FlexStatements" with
  | None => []
  | Some fse =>
      findall fse "FlexStatement" ≫= (fun st =>
        match find st "Trades" with
        | None => []
        | Some ts => findall ts "Trade"
        end)
  end.
Proof.
  unfold trade_elems, trades_elems.
  destruct (find root "FlexStatements") as [fse|]; simpl; [|done].
  rewrite app_nil_r.
  induction (findall fse "FlexStatement") as [|st l IH]; [done|].
  rewrite !bind_cons, bind_app, IH. f_equal.
  destruct (find st "Trades"); simpl; [by rewrite app_nil_r | done].
Qed.

Lemma lot_elems_unfold (root : Element) :
  lot_elems root =
  match find root "FlexStatements" with
  | None => []
  | Some fse =>
      findall fse "FlexStatement" ≫= (fun st =>
        match find st "Trades" with
        | None => []
        | Some ts => findall ts "Lot"
        end)
  end.
Proof.
  unfold lot_elems, trades_elems.
  destruct (find root "FlexStatements") as [fse|]; simpl; [|done].
  rewrite app_nil_r.
  induction (findall fse "FlexStatement") as [|st l IH]; [done|].
  rewrite !bind_cons, bind_app, IH. f_equal.
  destruct (find st "Trades"); simpl; [by rewrite app_nil_r | done].
Qed.

(** The trade elements of [reached_trade] are those of [trade_elems]. *)
Lemma reached_trade_elems (root trade_elem : Element) :
  reached_trade root trade_elem <-> trade_elem ∈ trade_elems root.
Proof.
  rewrite trade_elems_unfold. unfold reached_trade. split.
  - intros (fse & st & ts & -> & Hst & Hts & Htrade).
    apply list_elem_of_bind. exists st. by rewrite Hts.
  - destruct (find root "FlexStatements") as [fse|]; [|by inversion 1].
    intros (st & Htrade & Hst)%list_elem_of_bind.
    destruct (find st "Trades") as [ts|] eqn:Hts; [|by inversion Htrade].
    by exists fse, st, ts.
Qed.

Section ParsingMore.
Context `{!Builtins}.

Lemma py_int_class (x : option string) (e : exn) :
  py_int x = Raise e -> exn_cls e = TypeError \/ exn_cls e = ValueError.
Proof.
  destruct x as [s|]; simpl.
  - destruct (int_of_str s); [discriminate | intros [= <-]; auto].
  - intros [= <-]; auto.
Qed.

Lemma parse_trade_class (trade_elem : Element) (e : exn) :
  parse_trade trade_elem = Raise e ->
  exn_cls e = TypeError \/ exn_cls e = ValueError.
Proof.
  unfold parse_trade. unfold_result.
  destruct (commission_or_zero_total (get trade_elem "ibCommission"))
    as [c ->].
  destruct (py_float (get trade_elem "quantity")) eqn:Eq;
    [|intros [= <-]; by eapply py_float_class].
  destruct (py_float (get trade_elem "tradePrice")) eqn:Ep;
    [|intros [= <-]; by eapply py_float_class].
  destruct (py_float (get trade_elem "fxRateToBase")) eqn:Ef;
    [discriminate | intros [= <-]; by eapply py_float_class].
Qed.

Lemma parse_lot_class (lot_elem : Element) (e : exn) :
  parse_lot lot_elem = Raise e ->
  exn_cls e = TypeError \/ exn_cls e = ValueError.
Proof.
  unfold parse_lot. unfold_result.
  destruct (py_float (get lot_elem "quantity")) eqn:Eq;
    [|intros [= <-]; by eapply py_float_class].
  destruct (py_float (get lot_elem "tradePrice")) eqn:Ep;
    [|intros [= <-]; by eapply py_float_class].
  destruct (py_float (get lot_elem "fxRateToBase")) eqn:Ef;
    [discriminate | intros [= <-]; by eapply py_float_class].
Qed.

Lemma parse_statement_class (flex_statement_elem : Element) (e : exn) :
  parse_statement flex_statement_elem = Raise e ->
  exn_cls e = TypeError \/ exn_cls e = ValueError.
Proof.
  unfold parse_statement, parse_trades. unfold_result.
  destruct (find flex_statement_elem "Trades") as [ts|]; [|discriminate].
  destruct (append_each parse_trade (findall ts "Trade")) eqn:Et.
  - destruct (append_each parse_lot (findall ts "Lot")) eqn:El;
      [discriminate|].
    intros [= <-]. apply append_each_Raise_inv in El as (x & _ & Hx).
    by eapply parse_lot_class.
  - intros [= <-]. apply append_each_Raise_inv in Et as (x & _ & Hx).
    by eapply parse_trade_class.
Qed.

Lemma parse_root_class (root : Element) (e : exn) :
  parse_root root = Raise e ->
  exn_cls e = TypeError \/ exn_cls e = ValueError.
Proof.
  unfold parse_root. unfold_result.
  destruct (find root "FlexStatements") as [fse|]; [|discriminate].
  destruct (py_int (get fse "count")) eqn:Ec;
    [|intros [= <-]; by eapply py_int_class].
  destruct (append_each parse_statement (findall fse "FlexStatement"))
    eqn:Es; [discriminate|].
  intros [= <-]. apply append_each_Raise_inv in Es as (x & _ & Hx).
  by eapply parse_statement_class.
Qed.

End ParsingMore.

(** X1: [parse_xml] raises [ParseError] exactly when the text is not
    well-formed XML, and then with the message of the XML parser; on
    well-formed text it does what the rest of the function does with the
    root, which can only raise the [TypeError] or [ValueError] of [float]
    and [int]. *)
Theorem parse_xml_raises_only `{!Builtins} (xml_string : string) :
  (forall e,
     (parse_xml xml_string = Raise e /\ exn_cls e = ParseError) <->
     (exists msg, fromstring xml_string = inl msg /\
                  e = Exn ParseError msg)) /\
  (forall root, fromstring xml_string = inr root ->
     parse_xml xml_string = parse_root root) /\
  (forall e, parse_xml xml_string = Raise e ->
     exn_cls e = ParseError \/ exn_cls e = TypeError \/
     exn_cls e = ValueError).
Proof.
  unfold parse_xml. destruct (fromstring xml_string) as [msg|root].
  - split; [|split].
    + intros e. split.
      * intros [[= <-] _]. by exists msg.
      * intros (msg' & [= <-] & ->). done.
    + intros root [=].
    + intros e [= <-]. by left.
  - split; [|split].
    + intros e. split.
      * intros [Hraise Hcls].
        destruct (parse_root_class root e Hraise); congruence.
      * intros (msg & [=] & _).
    + by intros root' [= <-].
    + intros e Hraise. right. by eapply parse_root_class.
Qed.

Lemma parse_xml_raises_only_witness :
  @parse_xml Plain.builtins "not xml"
    = Raise (Exn ParseError "syntax error: line 1, column 0") /\
  @parse_xml Plain.builtins Plain.bad_quantity_text
    = @parse_root Plain.builtins Plain.bad_quantity_root /\
  (ValueError = ParseError \/ ValueError = TypeError \/
   ValueError = ValueError).
Proof.
  split; [|split].
  - exact (proj1 (proj2 (proj1 (@parse_xml_raises_only Plain.builtins
                                  "not xml")
                           (Exn ParseError "syntax error: line 1, column 0"))
                    (ex_intro _ "syntax error: line 1, column 0"
                       (conj eq_refl eq_refl)))).
  - exact (proj1 (proj2 (@parse_xml_raises_only Plain.builtins
                           Plain.bad_quantity_text))
             Plain.bad_quantity_root eq_refl).
  - exact (proj2 (proj2 (@parse_xml_raises_only Plain.builtins
                           Plain.bad_quantity_text))
             (Exn ValueError "could not convert string to float: 'ten'")
             eq_refl).
Defined.

(** ** When a document parses *)

Section ParsingCriterion.
Context `{!Builtins}.

Lemma numeric_fields_not (elem : Element) :
  not_a_float (get elem "quantity") \/
  not_a_float (get elem "tradePrice") \/
  not_a_float (get elem "fxRateToBase") ->
  ~ numeric_fields elem.
Proof.
  intros Hbad (Hq & Hp & Hfx).
  destruct Hbad as [Hb | [Hb | Hb]]; apply py_float_raises in Hb; congruence.
Qed.

Lemma parse_trade_is_Ok (trade_elem : Element) :
  is_Ok (parse_trade trade_elem) = true <-> numeric_fields trade_elem.
Proof.
  unfold parse_trade, numeric_fields. unfold_result.
  destruct (commission_or_zero_total (get trade_elem "ibCommission"))
    as [c ->].
  destruct (py_float (get trade_elem "quantity")); simpl; [|intuition discriminate].
  destruct (py_float (get trade_elem "tradePrice")); simpl; [|intuition discriminate].
  destruct (py_float (get trade_elem "fxRateToBase")); simpl; intuition discriminate.
Qed.

Lemma parse_lot_is_Ok (lot_elem : Element) :
  is_Ok (parse_lot lot_elem) = true <-> numeric_fields lot_elem.
Proof.
  unfold parse_lot, numeric_fields. unfold_result.
  destruct (py_float (get lot_elem "quantity")); simpl; [|intuition discriminate].
  destruct (py_float (get lot_elem "tradePrice")); simpl; [|intuition discriminate].
  destruct (py_float (get lot_elem "fxRateToBase")); simpl; intuition discriminate.
Qed.

Lemma parse_statement_is_Ok (flex_statement_elem : Element) :
  is_Ok (parse_statement flex_statement_elem) = true <->
  match find flex_statement_elem "Trades" with
  | None => True
  | Some ts =>
      Forall numeric_fields (findall ts "Trade") /\
      Forall numeric_fields (findall ts "Lot")
  end.
Proof.
  unfold parse_statement, parse_trades. unfold_result.
  destruct (find flex_statement_elem "Trades") as [ts|]; [|done].
  rewrite <- (Forall_iff _ _ _ parse_trade_is_Ok).
  rewrite <- (Forall_iff _ _ _ parse_lot_is_Ok).
  rewrite <- !append_each_is_Ok.
  destruct (append_each parse_trade (findall ts "Trade")); simpl;
    [|intuition discriminate].
  destruct (append_each parse_lot (findall ts "Lot")); simpl; intuition discriminate.
Qed.

Lemma parse_root_is_Ok (root : Element) :
  is_Ok (parse_root root) = true <->
  (forall fse, find root "FlexStatements" = Some fse ->
     is_Ok (py_int (get fse "count")) = true) /\
  Forall numeric_fields (trade_elems root) /\
  Forall numeric_fields (lot_elems root).
Proof.
  rewrite trade_elems_unfold, lot_elems_unfold.
  unfold parse_root. unfold_result.
  destruct (find root "FlexStatements") as [fse|]; [|by simpl].
  assert (is_Ok (append_each parse_statement (findall fse "FlexStatement"))
          = true <->
          Forall numeric_fields
            (findall fse "FlexStatement" ≫= (fun st =>
               match find st "Trades" with
               | None => []
               | Some ts => findall ts "Trade"
               end)) /\
          Forall numeric_fields
            (findall fse "FlexStatement" ≫= (fun st =>
               match find st "Trades" with
               | None => []
               | Some ts => findall ts "Lot"
               end))) as Hsts.
  { rewrite append_each_is_Ok, !Forall_bind, <- Forall_and.
    apply Forall_iff. intros st. rewrite parse_statement_is_Ok.
    unfold compose. destruct (find st "Trades"); [done|].
    split; [intros _; split; constructor | done]. }
  destruct (py_int (get fse "count")) as [n|e] eqn:Hc.
  - assert (forall fse0, Some fse = Some fse0 ->
              is_Ok (py_int (get fse0 "count")) = true) as Hcount
      by (intros ? [= <-]; by rewrite Hc).
    destruct (append_each parse_statement (findall fse "FlexStatement"))
      eqn:Hs; simpl.
    + split; [intros _; split; [done | by apply Hsts] | done].
    + split; [discriminate | intros [_ Hall]; by apply Hsts].
  - simpl. split; [discriminate|]. intros [Hcount _].
    specialize (Hcount fse eq_refl). by rewrite Hc in Hcount.
Qed.

(** Within a statement the trades and the lots parse in document
    order. *)
Lemma parse_statement_order (flex_statement_elem : Element) s :
  parse_statement flex_statement_elem = Ok s ->
  Forall2 (fun x t => parse_trade x = Ok t)
    (match find flex_statement_elem "Trades" with
     | None => []
     | Some ts => findall ts "Trade"
     end) (trades_of s).
Proof.
  unfold parse_statement, parse_trades, trades_of.
  intros (o & Ho & [= <-])%bind_Ok_inv. simpl.
  destruct (find flex_statement_elem "Trades") as [ts|].
  - apply bind_Ok_inv in Ho as (trade & Ht & Ho).
    apply bind_Ok_inv in Ho as (lot & Hl & [= <-]).
    by apply append_each_Ok.
  - injection Ho as <-. constructor.
Qed.

Lemma parse_root_order (root : Element) doc :
  parse_root root = Ok doc ->
  Forall2 (fun x t => parse_trade x = Ok t)
    (trade_elems root) (traversal [doc]).
Proof.
  rewrite trade_elems_unfold. unfold traversal.
  rewrite bind_cons, list_bind_nil, app_nil_r.
  unfold parse_root, statements_of.
  intros (o & Ho & [= <-])%bind_Ok_inv. simpl.
  destruct (find root "FlexStatements") as [fse|].
  - apply bind_Ok_inv in Ho as (n & Hn & Ho).
    apply bind_Ok_inv in Ho as (sts & Hsts & [= <-]). simpl.
    apply Forall2_bind. apply append_each_Ok in Hsts.
    eapply Forall2_impl; [exact Hsts|].
    intros st s Hs. by apply parse_statement_order.
  - injection Ho as <-. constructor.
Qed.

End ParsingCriterion.

(** X2: a document parses exactly when [int] accepts the [count] of its
    statement collection, if it has one, and [float] accepts [quantity],
    [tradePrice] and [fxRateToBase] of every trade and of every lot that
    is reached; no other attribute or element can make it fail, and the
    number of statements need not be the declared count. *)
Theorem parse_root_succeeds_exactly `{!Builtins} (root : Element) :
  (exists doc, parse_root root = Ok doc) <->
  (forall fse, find root "FlexStatements" = Some fse ->
     exists n, py_int (get fse "count") = Ok n) /\
  Forall numeric_fields (trade_elems root) /\
  Forall numeric_fields (lot_elems root).
Proof.
  rewrite <- is_Ok_true, parse_root_is_Ok.
  split; intros (Hc & Ht & Hl); (split; [|done]);
    intros fse Hfse; apply is_Ok_true; by apply Hc.
Qed.

(** X3: the trades of a parsed document, read in the order of the nested
    traversal, are the parsed [Trade] elements of the text in document
    order, one for one. *)
Theorem parsed_trades_in_document_order `{!Builtins} (root : Element)
    (doc : FlexQueryResponse.t) :
  parse_root root = Ok doc ->
  Forall2 (fun trade_elem t => parse_trade trade_elem = Ok t)
    (trade_elems root) (traversal [doc]) /\
  length (traversal [doc]) = length (trade_elems root).
Proof.
  intros Hdoc%parse_root_order. split; [done|].
  symmetry. by eapply Forall2_length.
Qed.

Lemma parsed_trades_in_document_order_witness :
  trade_elems Plain.mixed_root =
    [Plain.msft_trade_elem; Plain.cash_trade_elem; Plain.vod_trade_elem;
     Plain.sap_trade_elem] /\
  Forall2 (fun trade_elem t => @parse_trade Plain.builtins trade_elem = Ok t)
    [Plain.msft_trade_elem; Plain.cash_trade_elem; Plain.vod_trade_elem;
     Plain.sap_trade_elem]
    [Plain.msft_trade; Plain.cash_trade; Plain.vod_trade; Plain.sap_trade].
Proof.
  split; [reflexivity|].
  exact (proj1 (@parsed_trades_in_document_order Plain.builtins
                  Plain.mixed_root Plain.mixed_doc eq_refl)).
Defined.

Lemma parse_root_succeeds_exactly_witness :
  exists doc, @parse_root Plain.builtins Plain.mixed_root = Ok doc.
Proof.
  apply (proj2 (@parse_root_succeeds_exactly Plain.builtins
                  Plain.mixed_root)).
  split; [|split].
  - intros fse [= <-]. exists 2. reflexivity.
  - repeat constructor.
  - repeat constructor.
Defined.

(** X4: a lot is parsed with the same three mandatory numbers as a
    trade, and a reached lot without them makes the whole document fail,
    although no row is ever made from a lot; its [ibCommission] is kept as
    the text of the attribute, number or not. *)
Theorem lot_numbers_are_mandatory `{!Builtins} (lot_elem : Element) :
  (forall q p fx,
     py_float (get lot_elem "quantity") = Ok q ->
     py_float (get lot_elem "tradePrice") = Ok p ->
     py_float (get lot_elem "fxRateToBase") = Ok fx ->
     exists l, parse_lot lot_elem = Ok l /\
       Lot.ibCommission l = get lot_elem "ibCommission" /\
       Lot.quantity l = q /\ Lot.tradePrice l = p /\
       Lot.fxRateToBase l = fx) /\
  (not_a_float (get lot_elem "quantity") \/
   not_a_float (get lot_elem "tradePrice") \/
   not_a_float (get lot_elem "fxRateToBase") ->
   is_Ok (parse_lot lot_elem) = false /\
   forall root, lot_elem ∈ lot_elems root ->
                is_Ok (parse_root root) = false).
Proof.
  split.
  - intros q p fx Hq Hp Hfx. unfold parse_lot. rewrite Hq, Hp, Hfx.
    eexists. split; [reflexivity|]. done.
  - intros Hbad%numeric_fields_not. split.
    + destruct (is_Ok (parse_lot lot_elem)) eqn:E; [|done].
      by apply parse_lot_is_Ok in E.
    + intros root Hin.
      destruct (is_Ok (parse_root root)) eqn:E; [|done].
      apply parse_root_is_Ok in E as (_ & _ & Hlots).
      rewrite Forall_forall in Hlots. by apply Hlots in Hin.
Qed.

Lemma lot_numbers_are_mandatory_witness :
  (exists l, @parse_lot Plain.builtins Samples.lot_elem = Ok l /\
             Lot.ibCommission l = Some "n/a") /\
  is_Ok (@parse_root Plain.builtins Samples.bad_lot_root) = false.
Proof.
  split.
  - destruct (proj1 (@lot_numbers_are_mandatory Plain.builtins
                       Samples.lot_elem)
                (Plain.lit "3") (Plain.lit "120") (Plain.lit "0.85")
                eq_refl eq_refl eq_refl) as (l & Hl & Hc & _).
    exists l. split; [exact Hl | exact Hc].
  - apply (proj2 (@lot_numbers_are_mandatory Plain.builtins
                    Samples.bad_lot_elem)).
    + left. right. exists "three". split; reflexivity.
    + apply list_elem_of_here.
Defined.

(** ** Siblings *)

(** A child is not looked for under a tag when it has another tag or
    comes after a child with that tag. *)
Lemma find_without (t : string) (a : gmap string string)
    (before after : list Element) (child : Element) (wanted : string) :
  tag child ≠ wanted \/ (exists c, c ∈ before /\ tag c = wanted) ->
  find (mkElement t a (before ++ child :: after)) wanted =
  find (mkElement t a (before ++ after)) wanted.
Proof.
  intros Hunread. unfold find, findall. simpl.
  rewrite !filter_app, filter_cons.
  destruct (decide (tag child = wanted)) as [Htag|Htag]; [|done].
  destruct Hunread as [Hne|(c & Hc & Hctag)]; [done|].
  assert (c ∈ filter (fun c => tag c = wanted) before) as Hin
    by (by apply list_elem_of_filter).
  destruct (filter (fun c => tag c = wanted) before) as [|c0 l];
    [by inversion Hin | done].
Qed.

(** X5: of the children of the root only the first [FlexStatements]
    child is read, and of the children of a statement only the first
    [AccountInformation] child and the first [Trades] child: taking away
    any other child, one with another tag or a later one with the same
    tag, a further statement collection or trade block included, leaves
    what is parsed unchanged. *)
Theorem later_siblings_are_ignored `{!Builtins} (t : string)
    (a : gmap string string) (before after : list Element)
    (child : Element) :
  (tag child ≠ "FlexStatements" \/
   (exists c, c ∈ before /\ tag c = "FlexStatements") ->
   parse_root (mkElement t a (before ++ child :: after)) =
   parse_root (mkElement t a (before ++ after))) /\
  (tag child ≠ "AccountInformation" \/
   (exists c, c ∈ before /\ tag c = "AccountInformation") ->
   tag child ≠ "Trades" \/ (exists c, c ∈ before /\ tag c = "Trades") ->
   parse_statement (mkElement t a (before ++ child :: after)) =
   parse_statement (mkElement t a (before ++ after))).
Proof.
  split.
  - intros Hfs. unfold parse_root.
    by rewrite (find_without t a before after child _ Hfs).
  - intros Hai Htr.
    unfold parse_statement, parse_account_information, parse_trades.
    rewrite (find_without t a before after child _ Hai).
    by rewrite (find_without t a before after child _ Htr).
Qed.

Lemma later_siblings_are_ignored_witness :
  @parse_root Plain.builtins Samples.siblings_root =
  @parse_root Plain.builtins
    (Plain.elem "FlexQueryResponse" [("queryName", "cgt"); ("type", "AF")]
       [Plain.elem "Note" [] [];
        Plain.elem "FlexStatements" [("count", "1")]
          [Plain.elem "FlexStatement" [("accountId", "U1")]
             [Plain.elem "Trades" [] [Plain.aapl_trade_elem];
              Plain.elem "Trades" [] [Plain.bad_quantity_trade_elem]]]]) /\
  @parse_statement Plain.builtins
    (Plain.elem "FlexStatement" [("accountId", "U1")]
       [Plain.elem "Trades" [] [Plain.aapl_trade_elem];
        Plain.elem "Trades" [] [Plain.bad_quantity_trade_elem]]) =
  @parse_statement Plain.builtins
    (Plain.elem "FlexStatement" [("accountId", "U1")]
       [Plain.elem "Trades" [] [Plain.aapl_trade_elem]]).
Proof.
  split.
  - apply (proj1 (@later_siblings_are_ignored Plain.builtins
                    "FlexQueryResponse"
                    (list_to_map [("queryName", "cgt"); ("type", "AF")])
                    [Plain.elem "Note" [] [];
                     Plain.elem "FlexStatements" [("count", "1")]
                       [Plain.elem "FlexStatement" [("accountId", "U1")]
                          [Plain.elem "Trades" [] [Plain.aapl_trade_elem];
                           Plain.elem "Trades" []
                             [Plain.bad_quantity_trade_elem]]]]
                    [] (Plain.elem "FlexStatements" [] []))).
    right. eexists. split; [apply list_elem_of_further, list_elem_of_here|].
    reflexivity.
  - apply (proj2 (@later_siblings_are_ignored Plain.builtins
                    "FlexStatement" (list_to_map [("accountId", "U1")])
                    [Plain.elem "Trades" [] [Plain.aapl_trade_elem]] []
                    (Plain.elem "Trades" [] [Plain.bad_quantity_trade_elem]))).
    + left. discriminate.
    + right. eexists. split; [apply list_elem_of_here | reflexivity].
Defined.

(** ** More on the rows of [convert] *)

Lemma fabs_fopp (x : float) : fabs (fopp x) = fabs x.
Proof. by destruct x. Qed.

(** The sign given to [binary_round_aux] is the sign of what it
    returns. *)
Lemma fabs_binary_round_aux s1 s2 m e l :
  fabs (binary_round_aux prec emax s1 m e l) =
  fabs (binary_round_aux prec emax s2 m e l).
Proof.
  unfold binary_round_aux.
  destruct (shr_fexp prec emax m e l) as [mrs e'].
  destruct (shr_fexp prec emax _ e' loc_Exact) as [mrs' e''].
  destruct (shr_m mrs'); [done| |done].
  by destruct (e'' <=? emax - prec)%Z.
Qed.

Lemma binary_round_aux_negative s m e l :
  flt (binary_round_aux prec emax s m e l) fzero = true -> s = true.
Proof.
  unfold binary_round_aux.
  destruct (shr_fexp prec emax m e l) as [mrs e'].
  destruct (shr_fexp prec emax _ e' loc_Exact) as [mrs' e''].
  destruct (shr_m mrs'); [done| |done].
  by destruct (e'' <=? emax - prec)%Z, s.
Qed.

Lemma fabs_fmul_fopp_l (x y : float) :
  fabs (fmul (fopp x) y) = fabs (fmul x y).
Proof.
  destruct x as [sx|sx| |sx mx ex], y as [sy|sy| |sy my ey]; try done.
  apply fabs_binary_round_aux.
Qed.

Lemma fabs_fmul_fopp_r (x y : float) :
  fabs (fmul x (fopp y)) = fabs (fmul x y).
Proof.
  destruct x as [sx|sx| |sx mx ex], y as [sy|sy| |sy my ey]; try done.
  apply fabs_binary_round_aux.
Qed.

(** A product with a factor that is not negative is negative only if the
    other factor is. *)
Lemma fmul_fabs_negative (x y : float) :
  flt (fmul (fabs x) y) fzero = true -> flt y fzero = true.
Proof.
  destruct x as [sx|sx| |sx mx ex], y as [[|]|[|]| |[|] my ey];
    try done; simpl.
  intros Hneg%binary_round_aux_negative. discriminate.
Qed.

(** The truncation of a rational that is not negative lies within one
    below it. *)
Lemma Qtruncate_bounds (x : Q) :
  (0 <= x)%Q ->
  0 <= Qtruncate x /\
  (inject_Z (Qtruncate x) <= x)%Q /\ (x < inject_Z (Qtruncate x + 1))%Q.
Proof.
  destruct x as [a b]. unfold Qle, Qlt, Qtruncate. simpl.
  rewrite !Z.mul_1_r. intros Ha.
  rewrite Z.quot_div_nonneg by lia.
  split; [apply Z.div_pos; lia|]. split.
  - rewrite Z.mul_comm. apply Z.mul_div_le. lia.
  - rewrite Z.mul_comm. apply Z.mul_succ_div_gt. lia.
Qed.

(** X6: [convert] raises exactly when the quantity is an infinity or a
    NaN, [OverflowError] for the one and [ValueError] for the other; no
    other field of the trade can make it raise. *)
Theorem convert_raises_exactly (t : Trade.t) :
  (is_finite (Trade.quantity t) = true <-> exists r, convert t = Ok r) /\
  (forall s, Trade.quantity t = S754_infinity s ->
     convert t = Raise (Exn OverflowError
                          "cannot convert float infinity to integer")) /\
  (Trade.quantity t = S754_nan ->
     convert t = Raise (Exn ValueError
                          "cannot convert float NaN to integer")).
Proof.
  split; [|split].
  - split; [apply convert_total | intros [r Hr]; by eapply convert_Ok_finite].
  - intros s Hq. unfold convert. by rewrite Hq.
  - intros Hq. unfold convert. by rewrite Hq.
Qed.

Lemma convert_raises_exactly_witness :
  (exists r, convert Plain.msft_trade = Ok r) /\
  convert Plain.inf_quantity_trade
    = Raise (Exn OverflowError "cannot convert float infinity to integer").
Proof.
  split.
  - exact (proj1 (proj1 (convert_raises_exactly Plain.msft_trade)) eq_refl).
  - exact (proj1 (proj2 (convert_raises_exactly Plain.inf_quantity_trade))
             false eq_refl).
Defined.

(** X7: the shares of a row are never negative, and they are the whole
    part of the magnitude of the quantity: at most the magnitude, and less
    than one below it. *)
Theorem shares_bounds (t : Trade.t) (r : CgtCalculatorTrade.t) :
  convert t = Ok r ->
  0 <= CgtCalculatorTrade.shares r /\
  (inject_Z (CgtCalculatorTrade.shares r)
     <= Qabs (float_value (Trade.quantity t)))%Q /\
  (Qabs (float_value (Trade.quantity t))
     < inject_Z (CgtCalculatorTrade.shares r + 1))%Q.
Proof.
  intros (n & Hn & ->)%convert_Ok. simpl.
  apply int_of_fabs_truncates in Hn as ->.
  apply Qtruncate_bounds, Qabs_nonneg.
Qed.

Lemma shares_bounds_witness :
  (inject_Z 12 <= Qabs (float_value (Plain.lit "-12.7")))%Q /\
  (Qabs (float_value (Plain.lit "-12.7")) < inject_Z 13)%Q.
Proof.
  exact (proj2 (shares_bounds Plain.msft_trade Plain.msft_row eq_refl)).
Defined.

(** X8: a trade and the trade of the opposite quantity have the same
    row but for the side: same shares, price, charges, date and company;
    the sides differ unless the quantity is a zero. *)
Theorem opposite_quantity_same_row (t : Trade.t) (r : CgtCalculatorTrade.t) :
  convert t = Ok r ->
  exists r',
    convert (with_quantity (fopp (Trade.quantity t)) t) = Ok r' /\
    CgtCalculatorTrade.shares r' = CgtCalculatorTrade.shares r /\
    CgtCalculatorTrade.price r' = CgtCalculatorTrade.price r /\
    CgtCalculatorTrade.charges r' = CgtCalculatorTrade.charges r /\
    CgtCalculatorTrade.date r' = CgtCalculatorTrade.date r /\
    CgtCalculatorTrade.company r' = CgtCalculatorTrade.company r /\
    (forall s m e, Trade.quantity t = S754_finite s m e ->
       CgtCalculatorTrade.side r' ≠ CgtCalculatorTrade.side r) /\
    (forall s, Trade.quantity t = S754_zero s ->
       CgtCalculatorTrade.side r' = CgtCalculatorTrade.side r).
Proof.
  intros (n & Hn & ->)%convert_Ok.
  eexists. split.
  - apply convert_Ok. exists n. split; [|reflexivity].
    simpl. by rewrite fabs_fopp.
  - simpl. repeat (split; [reflexivity|]). unfold Trade.side. simpl. split.
    + intros s m e ->. by destruct s.
    + intros s ->. by destruct s.
Qed.

Lemma opposite_quantity_same_row_witness :
  exists r',
    convert Samples.vod_sale = Ok r' /\
    CgtCalculatorTrade.shares r' = 5 /\
    CgtCalculatorTrade.side r' ≠ "BUY".
Proof.
  destruct (opposite_quantity_same_row Plain.vod_trade Plain.vod_row eq_refl)
    as (r' & Hr' & Hshares & _ & _ & _ & _ & Hside & _).
  exists r'. split; [exact Hr'|]. split; [exact Hshares|].
  exact (Hside false 5629499534213120%positive (-50) eq_refl).
Defined.

(** X9: the sign of the trade price does not reach the row, and the sign
    of the rate does not reach the price: the trade of the opposite price
    has the same row, and the trade of the opposite rate a row of the same
    price. *)
Theorem price_ignores_signs (t : Trade.t) (r : CgtCalculatorTrade.t) :
  convert t = Ok r ->
  convert (with_tradePrice (fopp (Trade.tradePrice t)) t) = Ok r /\
  exists r',
    convert (with_fxRateToBase (fopp (Trade.fxRateToBase t)) t) = Ok r' /\
    CgtCalculatorTrade.price r' = CgtCalculatorTrade.price r.
Proof.
  intros (n & Hn & ->)%convert_Ok. split.
  - apply convert_Ok. exists n. split; [done|].
    unfold Trade.tradePriceInBaseCurrency, Trade.ibCommissionInBaseCurrency,
      Trade.side. simpl. by rewrite fabs_fmul_fopp_l.
  - eexists. split.
    + apply convert_Ok. exists n. split; [done | reflexivity].
    + unfold Trade.tradePriceInBaseCurrency. simpl.
      by rewrite fabs_fmul_fopp_r.
Qed.

Lemma price_ignores_signs_witness :
  convert (with_tradePrice (Plain.lit "-300") Plain.msft_trade)
    = Ok Plain.msft_row.
Proof.
  exact (proj1 (price_ignores_signs Plain.msft_trade Plain.msft_row eq_refl)).
Defined.

(** X10: unlike the price, the charges of a row can be negative, but
    only when the two currency codes agree and the rate itself is
    negative. *)
Theorem negative_charges (t : Trade.t) (r : CgtCalculatorTrade.t) :
  convert t = Ok r ->
  flt (CgtCalculatorTrade.charges r) fzero = true ->
  Trade.ibCommissionCurrency t = Trade.currency t /\
  flt (Trade.fxRateToBase t) fzero = true.
Proof.
  intros (n & Hn & ->)%convert_Ok. simpl.
  unfold Trade.ibCommissionInBaseCurrency.
  destruct (decide (Trade.ibCommissionCurrency t = Trade.currency t))
    as [Heq|Hne].
  - intros Hneg%fmul_fabs_negative. done.
  - by rewrite fabs_not_negative.
Qed.

Lemma negative_charges_witness :
  (exists r,
     convert (with_fxRateToBase (Plain.lit "-0.79") Plain.msft_trade) = Ok r /\
     CgtCalculatorTrade.charges r = Plain.lit "-1.185") /\
  flt (Plain.lit "-0.79") fzero = true.
Proof.
  split.
  - eexists. split; reflexivity.
  - exact (proj2 (negative_charges
                    (with_fxRateToBase (Plain.lit "-0.79") Plain.msft_trade)
                    _ eq_refl eq_refl)).
Defined.

(** ** More on the loops of [get_trades_from_xmls] *)

(** A loop whose body only appends to what it is given can be run on the
    empty list and its rows appended afterwards. *)
Lemma for_each_from_empty {A R} (body : list R -> A -> result (list R)) :
  (forall acc a, body acc a = (new ← body [] a; Ok (acc ++ new))) ->
  forall l acc,
    for_each body l acc = (new ← for_each body l []; Ok (acc ++ new)).
Proof.
  intros Hbody. induction l as [|a l IH]; intros acc; simpl.
  - unfold_result. by rewrite app_nil_r.
  - rewrite (Hbody acc a). unfold_result.
    destruct (body [] a) as [new|e]; [|done].
    rewrite (IH (acc ++ new)), (IH new). unfold_result.
    destruct (for_each body l []) as [rows|e]; [|done].
    by rewrite app_assoc.
Qed.

Lemma add_trade_from_empty acc txn :
  add_trade acc txn = (new ← add_trade [] txn; Ok (acc ++ new)).
Proof.
  unfold add_trade. unfold_result.
  destruct (decide (Trade.assetCategory txn = Some "CASH"));
    [by rewrite app_nil_r|].
  by destruct (convert txn).
Qed.

Lemma add_statement_from_empty acc statement :
  add_statement acc statement =
  (new ← add_statement [] statement; Ok (acc ++ new)).
Proof.
  unfold add_statement.
  destruct (FlexStatement.trades statement) as [ts|]; [|done].
  apply for_each_from_empty, add_trade_from_empty.
Qed.

Lemma add_document_from_empty acc data :
  add_document acc data = (new ← add_document [] data; Ok (acc ++ new)).
Proof.
  unfold add_document.
  destruct (FlexQueryResponse.flexStatements data) as [fss|]; [|done].
  apply for_each_from_empty, add_statement_from_empty.
Qed.

(** X11: [collect_trades] returns exactly when every document has its
    statement collection, every statement its trade block, and every
    trade that is not cash a finite quantity. *)
Theorem collect_trades_succeeds_exactly
    (parsed_data : list FlexQueryResponse.t) :
  (exists rows, collect_trades parsed_data = Ok rows) <->
  owners_present parsed_data /\
  Forall (fun txn => is_finite (Trade.quantity txn) = true)
    (kept (traversal parsed_data)).
Proof.
  split.
  - intros [rows [Hown Hrows]%collect_trades_Ok]. split; [done|].
    induction Hrows as [|txn r l k Hr _ IH]; constructor; [|done].
    by eapply convert_Ok_finite.
  - intros [Hown Hfin]. by apply collect_trades_total.
Qed.

Lemma collect_trades_succeeds_exactly_witness :
  exists rows, collect_trades [Plain.mixed_doc; Plain.empty_trades_doc]
               = Ok rows.
Proof.
  apply (proj2 (collect_trades_succeeds_exactly
                  [Plain.mixed_doc; Plain.empty_trades_doc])).
  split.
  - repeat constructor; simpl; eauto.
  - repeat constructor.
Defined.

(** X12: the rows of a list of documents are the rows of its first part
    followed by the rows of the rest, and it raises what the first of the
    two parts to raise does: documents can be converted apart and their
    rows joined in order. *)
Theorem collect_trades_app (docs1 docs2 : list FlexQueryResponse.t) :
  collect_trades (docs1 ++ docs2) =
  (rows1 ← collect_trades docs1;
   rows2 ← collect_trades docs2;
   Ok (rows1 ++ rows2)).
Proof.
  unfold collect_trades. rewrite for_each_app. unfold_result.
  destruct (for_each add_document docs1 []) as [rows1|e]; [|done].
  apply (for_each_from_empty _ add_document_from_empty).
Qed.

(** X13: a cash trade is skipped before it is converted: the inner loop
    gives the same on the trades that are not cash alone, so that a cash
    movement whose quantity is not finite raises nothing. *)
Theorem cash_is_never_converted (txns : list Trade.t)
    (rows : list CgtCalculatorTrade.t) :
  for_each add_trade txns rows = for_each add_trade (kept txns) rows.
Proof.
  unfold kept. revert rows. induction txns as [|txn l IH]; intros rows;
    [done|].
  rewrite filter_cons.
  destruct (decide (Trade.assetCategory txn ≠ Some "CASH")) as [Hc|Hc].
  - simpl. unfold_result. destruct (add_trade rows txn); [apply IH | done].
  - simpl. rewrite add_trade_cash; [apply IH|].
    by destruct (decide (Trade.assetCategory txn = Some "CASH")).
Qed.

(** X14: when [collect_trades] raises, it is the [AttributeError] of a
    document without statement collection, the [AttributeError] of a
    statement without trade block, or what [convert] raises for a trade
    that is not cash. *)
Theorem collect_trades_raises_only (parsed_data : list FlexQueryResponse.t)
    (e : exn) :
  collect_trades parsed_data = Raise e ->
  (e = attribute_of_None "flexStatement" /\
   exists data, data ∈ parsed_data /\
     FlexQueryResponse.flexStatements data = None) \/
  (e = attribute_of_None "trade" /\
   exists statement, statement ∈ parsed_data ≫= statements_of /\
     FlexStatement.trades statement = None) \/
  (exists txn, txn ∈ kept (traversal parsed_data) /\ convert txn = Raise e).
Proof.
  unfold collect_trades.
  intros (acc & data & Hdata & Hdoc)%for_each_Raise_inv.
  unfold add_document in Hdoc.
  destruct (FlexQueryResponse.flexStatements data) as [fss|] eqn:Hfss.
  - apply for_each_Raise_inv in Hdoc as (acc' & st & Hst & Hstm).
    assert (st ∈ parsed_data ≫= statements_of) as Hst'.
    { apply list_elem_of_bind. exists data. split; [|done].
      unfold statements_of. by rewrite Hfss. }
    unfold add_statement in Hstm.
    destruct (FlexStatement.trades st) as [ts|] eqn:Hts.
    + apply for_each_Raise_inv in Hstm as (acc'' & txn & Htxn & Hadd).
      right. right. exists txn. split.
      * unfold kept, traversal. apply list_elem_of_filter. split.
        -- intros Hc. by rewrite add_trade_cash in Hadd.
        -- apply list_elem_of_bind. exists data. split; [|done].
           apply list_elem_of_bind. exists st. split.
           ++ unfold trades_of. by rewrite Hts.
           ++ unfold statements_of. by rewrite Hfss.
      * unfold add_trade in Hadd.
        destruct (decide (Trade.assetCategory txn = Some "CASH"));
          [discriminate|].
        revert Hadd. unfold_result.
        destruct (convert txn); [discriminate | by intros [= ->]].
    + injection Hstm as <-. right. left. split; [done|]. by exists st.
  - injection Hdoc as <-. left. split; [done|]. by exists data.
Qed.

Lemma collect_trades_raises_only_witness :
  exists txn,
    txn ∈ kept (traversal [Plain.aapl_doc; Plain.inf_quantity_doc]) /\
    convert txn
      = Raise (Exn OverflowError "cannot convert float infinity to integer").
Proof.
  destruct (collect_trades_raises_only
              [Plain.aapl_doc; Plain.inf_quantity_doc]
              (Exn OverflowError "cannot convert float infinity to integer")
              eq_refl)
    as [[Habs _] | [[Habs _] | Htxn]].
  - discriminate Habs.
  - discriminate Habs.
  - exact Htxn.
Defined.

(** ** More on [process_xml_files] *)

Lemma string_length_app (s1 s2 : string) :
  String.length (s1 +:+ s2) = (String.length s1 + String.length s2)%nat.
Proof. induction s1 as [|c s1 IH]; simpl; [done | by rewrite IH]. Qed.

Lemma substring_all (s : string) : substring 0 (String.length s) s = s.
Proof. induction s as [|c s IH]; simpl; [done | by rewrite IH]. Qed.

Lemma substring_skip (p s : string) (m : nat) :
  substring (String.length p) m (p +:+ s) = substring 0 m s.
Proof. induction p as [|c p IH]; simpl; [done | apply IH]. Qed.

(** A string is what stands before a position followed by what stands
    from it on. *)
Lemma substring_split (s : string) (k : nat) :
  (k <= String.length s)%nat ->
  s = substring 0 k s +:+ substring k (String.length s - k) s.
Proof.
  revert k. induction s as [|c s IH]; intros k Hk; simpl in *.
  - by destruct k.
  - destruct k as [|k]; cbn.
    + by rewrite substring_all.
    + change (String c s =
              String c (substring 0 k s
                          +:+ substring k (String.length s - k) s)).
      f_equal. apply IH. lia.
Qed.

Section BatchMore.
Context `{!Builtins}.

Lemma parsed_reports_length fs folder_path names :
  (length (parsed_of fs folder_path names) +
   length (reports_of fs folder_path names))%nat =
  length (filter (fun filename => endswith filename ".xml" = true) names).
Proof.
  unfold parsed_of, reports_of.
  induction names as [|filename names IH]; [done|].
  rewrite !bind_cons, !length_app, filter_cons.
  destruct (endswith filename ".xml").
  - rewrite decide_True by done. simpl length.
    destruct (outcome fs folder_path filename); simpl; lia.
  - rewrite decide_False by done. simpl. lia.
Qed.

Lemma outcomes_agree fs1 fs2 folder_path names :
  (forall filename, filename ∈ names -> endswith filename ".xml" = true ->
     read_text fs1 (path_join folder_path filename) =
     read_text fs2 (path_join folder_path filename)) ->
  parsed_of fs1 folder_path names = parsed_of fs2 folder_path names /\
  reports_of fs1 folder_path names = reports_of fs2 folder_path names.
Proof.
  unfold parsed_of, reports_of.
  induction names as [|filename names IH]; intros Hsame; [done|].
  rewrite !bind_cons.
  destruct IH as [-> ->].
  { intros f Hf. apply Hsame. by apply elem_of_cons; right. }
  destruct (endswith filename ".xml") eqn:Hxml; [|done].
  unfold outcome. rewrite (Hsame filename); [done | | done].
  apply list_elem_of_here.
Qed.

End BatchMore.

(** X15: [endswith] holds exactly of the strings that are some string
    followed by the suffix; the name [.xml] itself ends in [.xml]. *)
Theorem endswith_spec (s suffix : string) :
  endswith s suffix = true <-> exists p, s = p +:+ suffix.
Proof.
  unfold endswith. rewrite andb_true_iff, Nat.leb_le, String.eqb_eq. split.
  - intros [Hle Hsuffix].
    exists (substring 0 (String.length s - String.length suffix) s).
    pose proof (substring_split s
                  (String.length s - String.length suffix)) as Hs.
    replace (String.length s - (String.length s - String.length suffix))%nat
      with (String.length suffix) in Hs by lia.
    rewrite Hsuffix in Hs. apply Hs. lia.
  - intros [p ->]. rewrite string_length_app. split; [lia|].
    replace (String.length p + String.length suffix - String.length suffix)%nat
      with (String.length p) by lia.
    by rewrite substring_skip, substring_all.
Qed.

(** X16: once the folder is listed, [process_xml_files] raises nothing,
    and every name that ends in [.xml] gives either one document or one
    printed line, the other names neither: the documents and the lines
    together are as many as those names. *)
Theorem every_xml_file_is_parsed_or_reported `{!Builtins} (fs : FileSystem)
    (folder_path : string) (names : list string) :
  listdir fs folder_path = Ok names ->
  exists parsed_data_list stdout,
    process_xml_files fs folder_path = (Ok parsed_data_list, stdout) /\
    (length parsed_data_list + length stdout)%nat =
    length (filter (fun filename => endswith filename ".xml" = true) names).
Proof.
  intros Hdir. unfold process_xml_files.
  rewrite Hdir, process_names_spec. simpl.
  eexists _, _. split; [reflexivity|]. apply parsed_reports_length.
Qed.

Lemma every_xml_file_is_parsed_or_reported_witness :
  exists parsed_data_list stdout,
    @process_xml_files Plain.builtins (Plain.files Plain.data_names) "data"
      = (Ok parsed_data_list, stdout) /\
    (length parsed_data_list + length stdout)%nat = 4%nat.
Proof.
  exact (@every_xml_file_is_parsed_or_reported Plain.builtins
           (Plain.files Plain.data_names) "data" Plain.data_names eq_refl).
Defined.

(** X17: only the files whose names end in [.xml] are read: two file
    systems that list the same names and hold the same files under those
    names give the same documents and the same printed lines. *)
Theorem only_xml_files_are_read `{!Builtins} (fs1 fs2 : FileSystem)
    (folder_path : string) :
  same_xml_files fs1 fs2 folder_path ->
  process_xml_files fs1 folder_path = process_xml_files fs2 folder_path.
Proof.
  intros [Hdir Hfiles]. unfold process_xml_files. rewrite <- Hdir.
  destruct (listdir fs1 folder_path) as [names|e]; [|done].
  rewrite !process_names_spec.
  destruct (outcomes_agree fs1 fs2 folder_path names) as [-> ->]; [|done].
  intros filename Hin Hxml. by apply (Hfiles names).
Qed.

Lemma only_xml_files_are_read_witness :
  @process_xml_files Plain.builtins (Plain.files Plain.data_names) "data" =
  @process_xml_files Plain.builtins (Samples.other_notes Plain.data_names)
    "data".
Proof.
  apply (@only_xml_files_are_read Plain.builtins).
  split; [reflexivity|].
  intros names filename [= <-] Hin Hxml.
  repeat (apply elem_of_cons in Hin as [-> | Hin];
          [first [reflexivity | discriminate Hxml] |]).
  inversion Hin.
Defined.

(** X18: what is printed for a file that was read tells the two kinds of
    failure apart: text that is not well-formed XML is reported as an
    error parsing XML, with the message of the XML parser; a well-formed
    document that [float] or [int] rejects is reported as an unexpected
    error; a document that parses adds itself and prints nothing. *)
Theorem report_kinds `{!Builtins} (fs : FileSystem) (folder_path : string)
    (parsed : list FlexQueryResponse.t) (stdout : list string)
    (filename xml_string : string) :
  endswith filename ".xml" = true ->
  read_text fs (path_join folder_path filename) = Ok xml_string ->
  (forall msg, fromstring xml_string = inl msg ->
     process_file fs folder_path (parsed, stdout) filename =
     (parsed,
      stdout ++ ["Error parsing XML file " +:+ filename +:+ ": " +:+ msg])) /\
  (forall root e, fromstring xml_string = inr root ->
     parse_root root = Raise e ->
     process_file fs folder_path (parsed, stdout) filename =
     (parsed,
      stdout ++ ["An unexpected error occurred processing " +:+ filename
                   +:+ ": " +:+ exn_str e])) /\
  (forall root doc, fromstring xml_string = inr root ->
     parse_root root = Ok doc ->
     process_file fs folder_path (parsed, stdout) filename =
     (parsed ++ [doc], stdout)).
Proof.
  intros Hxml Hread. unfold process_file. rewrite Hxml, Hread.
  unfold parse_xml. unfold_result. split; [|split].
  - intros msg ->. reflexivity.
  - intros root e -> Hraise. rewrite Hraise.
    by destruct (parse_root_class root e Hraise) as [-> | ->].
  - intros root doc -> Hdoc. by rewrite Hdoc.
Qed.

Lemma report_kinds_witness :
  @process_file Plain.builtins (Plain.files []) "data" ([], []) "broken.xml"
    = ([], ["Error parsing XML file broken.xml: syntax error: line 1, column 0"]).
Proof.
  exact (proj1 (@report_kinds Plain.builtins (Plain.files []) "data" [] []
                  "broken.xml" "not xml" eq_refl eq_refl)
           "syntax error: line 1, column 0" eq_refl).
Defined.

(** X19: end to end, [get_trades_from_xmls] raises what [os.listdir]
    raises, printing nothing; otherwise, when it returns, its rows are the
    rows of the trades that are not cash of the documents that parsed, in
    the order of the listing and of the traversal, and it has printed one
    line for every file that failed. *)
Theorem get_trades_from_xmls_rows `{!Builtins} (fs : FileSystem) :
  (forall e, listdir fs "data" = Raise e ->
     get_trades_from_xmls fs = (Raise e, [])) /\
  (forall names rows stdout,
     listdir fs "data" = Ok names ->
     get_trades_from_xmls fs = (Ok rows, stdout) ->
     Forall2 row_of (kept (traversal (parsed_of fs "data" names))) rows /\
     stdout = reports_of fs "data" names).
Proof.
  split.
  - intros e Hdir. unfold get_trades_from_xmls, process_xml_files.
    by rewrite Hdir.
  - intros names rows stdout Hdir.
    rewrite (get_trades_from_xmls_spec fs names Hdir).
    intros [= Hrows <-]. split; [|done].
    by apply collect_trades_Ok in Hrows as [_ Hrows].
Qed.

Lemma get_trades_from_xmls_rows_witness :
  Forall2 row_of
    (kept (traversal
             (@parsed_of Plain.builtins (Plain.files Plain.data_names)
                "data" Plain.data_names)))
    [Plain.aapl_row; Plain.msft_row; Plain.vod_row; Plain.sap_row].
Proof.
  exact (proj1 (proj2 (@get_trades_from_xmls_rows Plain.builtins
                         (Plain.files Plain.data_names))
                  Plain.data_names
                  [Plain.aapl_row; Plain.msft_row; Plain.vod_row;
                   Plain.sap_row]
                  _ eq_refl eq_refl)).
Defined.

(** ** [save_cgt_trades_to_csv] and the script *)

Section SavingProperties.
Context `{!Builtins} `{!CsvWriter}.

(** A row of the dataclass has the fields of the header and no other, so
    that [DictWriter] never raises on it and writes its seven values in
    the order of the header. *)
Lemma DictWriter_writerow_asdict first trade :
  DictWriter_writerow (map fst (asdict first)) (asdict trade) =
  Ok (writer_writerow (map snd (asdict trade))).
Proof. reflexivity. Qed.

Lemma DictWriter_writeheader_asdict first :
  DictWriter_writeheader (map fst (asdict first)) =
  Ok (writer_writerow
        (map VStr
           ["side"; "date"; "company"; "shares"; "price"; "charges";
            "tax"])).
Proof. reflexivity. Qed.

Lemma write_rows_asdict first trades text :
  write_rows (map fst (asdict first)) trades text =
  (fold_left
     (fun text trade => text +:+ writer_writerow (map snd (asdict trade)))
     trades text, None).
Proof.
  revert text. induction trades as [|trade trades IH]; intros text; [done|].
  cbn [write_rows fold_left]. rewrite DictWriter_writerow_asdict. apply IH.
Qed.

End SavingProperties.

(** X20: for a ledger that is not empty, [save_cgt_trades_to_csv] tries
    to open the file; if that raises it prints the error and leaves no
    file; if not, [DictWriter] accepts every row, the file holds the
    header and then one record for every row, in the order of the ledger,
    and the success is printed. *)
Theorem save_writes_every_row `{!Builtins} `{!CsvWriter} (disk : Disk)
    (trades : list CgtCalculatorTrade.t) (filename : string) :
  trades ≠ [] ->
  (open_w disk filename = Ok tt ->
   save_cgt_trades_to_csv disk trades filename =
   (["Trades successfully saved to " +:+ filename],
    Some (filename, csv_text trades))) /\
  (forall e, open_w disk filename = Raise e ->
   save_cgt_trades_to_csv disk trades filename =
   (["An error occurred while writing to the CSV file: " +:+ exn_str e],
    None)).
Proof.
  intros Hne. destruct trades as [|first rest]; [done|].
  unfold save_cgt_trades_to_csv. split.
  - intros ->. rewrite DictWriter_writeheader_asdict, write_rows_asdict.
    reflexivity.
  - intros e ->. reflexivity.
Qed.

Lemma save_writes_every_row_witness :
  @save_cgt_trades_to_csv Plain.builtins Samples.csv_writer Samples.writable
    [Plain.aapl_row; Plain.vod_row] "trades.csv" =
  (["Trades successfully saved to trades.csv"],
   Some ("trades.csv",
         Samples.writerow
           (map VStr
              ["side"; "date"; "company"; "shares"; "price"; "charges";
               "tax"])
         +:+ Samples.writerow
               [VStr "SELL"; VStr "2024-01-05"; VStr "AAPL"; VInt 10;
                VFloat (Plain.lit "150.0"); VFloat (Plain.lit "1.0"); VInt 0]
         +:+ Samples.writerow
               [VStr "BUY"; VStr "2024-02-03"; VStr "VOD"; VInt 5;
                VFloat (Plain.lit "70"); VFloat fzero; VInt 0])).
Proof.
  refine (eq_trans
    (proj1 (@save_writes_every_row Plain.builtins Samples.csv_writer
              Samples.writable [Plain.aapl_row; Plain.vod_row] "trades.csv"
              _) eq_refl) _).
  - discriminate.
  - vm_compute. reflexivity.
Defined.

Section ScriptProperties.
Context `{!Builtins} `{!CsvWriter}.

Lemma main_spec (fs : FileSystem) (disk : Disk) (names : list string) :
  listdir fs "data" = Ok names ->
  main fs disk =
  match collect_trades (parsed_of fs "data" names) with
  | Raise e =>
      {| raised := Some e; printed := reports_of fs "data" names;
         written := None |}
  | Ok trades =>
      {| raised := None;
         printed := reports_of fs "data" names
                    ++ fst (save_cgt_trades_to_csv disk trades "trades.csv");
         written := snd (save_cgt_trades_to_csv disk trades "trades.csv") |}
  end.
Proof.
  intros Hdir. unfold main.
  rewrite (get_trades_from_xmls_spec fs names Hdir).
  destruct (collect_trades (parsed_of fs "data" names)) as [trades|e];
    [|done].
  by destruct (save_cgt_trades_to_csv disk trades "trades.csv").
Qed.

End ScriptProperties.

Lemma rows_of_finite (txns : list Trade.t)
    (rows : list CgtCalculatorTrade.t) :
  Forall2 row_of txns rows ->
  Forall (fun txn => is_finite (Trade.quantity txn) = true) txns.
Proof.
  induction 1 as [|txn r l k Hr _ IH]; constructor; [|done].
  by eapply convert_Ok_finite.
Qed.

(** X21: one parsed document without statement collection, one statement
    without trade block, or one trade that is not cash with a quantity
    that is not finite ends the script with an exception before anything
    is saved: no file is written, whatever the other documents hold, and
    only the failures of reading and parsing were printed. *)
Theorem one_bad_document_stops_the_script `{!Builtins} `{!CsvWriter}
    (fs : FileSystem) (disk : Disk) (names : list string) :
  listdir fs "data" = Ok names ->
  ~ (owners_present (parsed_of fs "data" names) /\
     Forall (fun txn => is_finite (Trade.quantity txn) = true)
       (kept (traversal (parsed_of fs "data" names)))) ->
  exists e,
    main fs disk =
    {| raised := Some e; printed := reports_of fs "data" names;
       written := None |}.
Proof.
  intros Hdir Hbad. rewrite (main_spec fs disk names Hdir).
  destruct (collect_trades (parsed_of fs "data" names)) as [rows|e] eqn:E;
    [|by exists e].
  exfalso. apply Hbad.
  apply collect_trades_Ok in E as [Hown Hrows]. split; [done|].
  by eapply rows_of_finite.
Qed.

Lemma one_bad_document_stops_the_script_witness :
  exists e,
    @main Plain.builtins Samples.csv_writer
      (Plain.files ["aapl.xml"; "none.xml"; "mixed.xml"]) Samples.writable =
    {| raised := Some e; printed := []; written := None |}.
Proof.
  apply (@one_bad_document_stops_the_script Plain.builtins Samples.csv_writer
           (Plain.files ["aapl.xml"; "none.xml"; "mixed.xml"])
           Samples.writable ["aapl.xml"; "none.xml"; "mixed.xml"] eq_refl).
  intros [Hown _].
  apply Forall_cons in Hown as [_ Hown].
  apply Forall_cons in Hown as [[[fss Hfss] _] _].
  discriminate Hfss.
Defined.

(** X22: when the conversion returns, the script writes [trades.csv] with
    the header and the rows if there is a row and the file opens, and
    writes no file at all, printing a notice, if there is none; there is
    none exactly when the parsed documents hold no trade that is not
    cash. *)
Theorem script_output `{!Builtins} `{!CsvWriter} (fs : FileSystem)
    (disk : Disk) (names : list string) (rows : list CgtCalculatorTrade.t) :
  listdir fs "data" = Ok names ->
  collect_trades (parsed_of fs "data" names) = Ok rows ->
  (rows = [] <-> kept (traversal (parsed_of fs "data" names)) = []) /\
  (rows = [] ->
   main fs disk =
   {| raised := None;
      printed := reports_of fs "data" names ++ ["No trades to write to CSV."];
      written := None |}) /\
  (rows ≠ [] -> open_w disk "trades.csv" = Ok tt ->
   main fs disk =
   {| raised := None;
      printed := reports_of fs "data" names
                 ++ ["Trades successfully saved to trades.csv"];
      written := Some ("trades.csv", csv_text rows) |}).
Proof.
  intros Hdir Hrows. rewrite (main_spec fs disk names Hdir), Hrows.
  split; [|split].
  - apply collect_trades_Ok in Hrows as [_ Hrows].
    apply Forall2_length in Hrows.
    split; intros Hnil; rewrite Hnil in Hrows; simpl in Hrows.
    + by apply length_zero_iff_nil.
    + symmetry in Hrows. by apply length_zero_iff_nil in Hrows.
  - intros ->. reflexivity.
  - intros Hne Hopen. destruct rows as [|first rest]; [done|].
    unfold save_cgt_trades_to_csv. rewrite Hopen.
    rewrite DictWriter_writeheader_asdict, write_rows_asdict. reflexivity.
Qed.

Lemma script_output_witness :
  @main Plain.builtins Samples.csv_writer (Plain.files ["empty.xml"])
    Samples.writable =
  {| raised := None; printed := ["No trades to write to CSV."];
     written := None |} /\
  written (@main Plain.builtins Samples.csv_writer
             (Plain.files ["aapl.xml"]) Samples.writable) =
  Some ("trades.csv",
        @csv_text Samples.csv_writer [Plain.aapl_row]).
Proof.
  split.
  - exact (proj1 (proj2 (@script_output Plain.builtins Samples.csv_writer
                           (Plain.files ["empty.xml"]) Samples.writable
                           ["empty.xml"] [] eq_refl eq_refl)) eq_refl).
  - rewrite (proj2 (proj2 (@script_output Plain.builtins Samples.csv_writer
                             (Plain.files ["aapl.xml"]) Samples.writable
                             ["aapl.xml"] [Plain.aapl_row] eq_refl eq_refl))).
    + reflexivity.
    + discriminate.
    + reflexivity.
Defined.

(** The file of the example folder, as text. *)
Example script_folder :
  written (@main Plain.builtins Samples.csv_writer
             (Plain.files ["aapl.xml"; "mixed.xml"]) Samples.writable) =
  Some ("trades.csv",
        String.concat (String "013" (String "010" ""))
          ["side,date,company,shares,price,charges,tax";
           "SELL,2024-01-05,AAPL,10,150.0,1.0,0";
           "SELL,2024-02-01,MSFT,12,237.0,1.185,0";
           "BUY,2024-02-03,VOD,5,70.0,0.0,0";
           "BUY,2024-02-04,SAP,3,102.0,4.0,0"; ""]).
Proof. vm_compute. reflexivity. Qed.

(** ** A rate of one *)

Lemma iter_pos_shr_1 (p : positive) : forall M : positive,
  SpecFloat.iter_pos shr_1 p
    (Build_shr_record (Z.pos (Pos.iter xO M p)) false false)
  = Build_shr_record (Z.pos M) false false.
Proof.
  induction p as [p IH|p IH|]; intros M; simpl.
  - by rewrite !IH.
  - by rewrite !IH.
  - done.
Qed.

Lemma digits2_pos_iter_xO (p M : positive) :
  digits2_pos (Pos.iter xO M p) = (digits2_pos M + p)%positive.
Proof.
  induction p as [|p IH] using Pos.peano_ind.
  - simpl. lia.
  - rewrite Pos.iter_succ. simpl. rewrite IH. lia.
Qed.

Lemma mul_iter_xO (p m q : positive) :
  (m * Pos.iter xO q p)%positive = Pos.iter xO (m * q)%positive p.
Proof.
  induction p as [|p IH] using Pos.peano_ind.
  - simpl. lia.
  - rewrite !Pos.iter_succ. rewrite <- IH. lia.
Qed.

(** Shifting a canonical mantissa to the left and the exponent down by as
    much is undone by the rounding, without loss. *)
Lemma shr_fexp_shifted (m : positive) (e : Z) (p : positive) :
  fexp prec emax (Z.pos (digits2_pos m) + e) = e ->
  shr_fexp prec emax (Z.pos (Pos.iter xO m p)) (e - Z.pos p) loc_Exact =
  (Build_shr_record (Z.pos m) false false, e).
Proof.
  intros Hc. unfold shr_fexp. unfold Zdigits2.
  rewrite digits2_pos_iter_xO.
  replace (Z.pos (digits2_pos m + p) + (e - Z.pos p))
    with (Z.pos (digits2_pos m) + e) by lia.
  rewrite Hc.
  replace (e - (e - Z.pos p)) with (Z.pos p) by lia.
  unfold shr, shr_record_of_loc. rewrite iter_pos_shr_1.
  f_equal. lia.
Qed.

Lemma shr_fexp_canonical (m : positive) (e : Z) :
  fexp prec emax (Z.pos (digits2_pos m) + e) = e ->
  shr_fexp prec emax (Z.pos m) e loc_Exact =
  (Build_shr_record (Z.pos m) false false, e).
Proof.
  intros Hc. unfold shr_fexp. unfold Zdigits2.
  by rewrite Hc, Z.sub_diag.
Qed.

(** Multiplying a binary64 float by [1.0] gives the float itself. *)
Lemma fmul_fone (x : float) : is_binary64 x = true -> fmul x fone = x.
Proof.
  unfold is_binary64. destruct x as [s|s| |s m e]; intros Hv.
  - by destruct s.
  - by destruct s.
  - done.
  - unfold valid_binary, bounded, canonical_mantissa in Hv.
    apply andb_true_iff in Hv as [Hc He]. apply Z.eqb_eq in Hc.
    unfold fmul, fone, SFmul.
    change 4503599627370496%positive with (Pos.iter xO 1%positive 52).
    rewrite mul_iter_xO, Pos.mul_1_r.
    unfold binary_round_aux.
    change (e + -52) with (e - 52).
    rewrite (shr_fexp_shifted m e 52 Hc).
    cbn [loc_of_shr_record shr_m round_nearest_even].
    rewrite (shr_fexp_canonical m e Hc). cbn [shr_m].
    rewrite He. by destruct s.
Qed.

Lemma is_binary64_fabs (x : float) : is_binary64 (fabs x) = is_binary64 x.
Proof. by destruct x. Qed.

(** X23: for a trade whose rate is [1.0], the price and the charges of
    the row are exactly the magnitudes of the trade price and of the
    commission: the multiplication by the rate rounds nothing away,
    whether the currency codes agree or not. *)
Theorem unit_rate_is_exact (t : Trade.t) (r : CgtCalculatorTrade.t) :
  convert t = Ok r ->
  Trade.fxRateToBase t = fone ->
  is_binary64 (Trade.tradePrice t) = true ->
  is_binary64 (Trade.ibCommission t) = true ->
  CgtCalculatorTrade.price r = fabs (Trade.tradePrice t) /\
  CgtCalculatorTrade.charges r = fabs (Trade.ibCommission t).
Proof.
  intros (n & _ & ->)%convert_Ok Hfx Hp Hc. simpl.
  unfold Trade.tradePriceInBaseCurrency, Trade.ibCommissionInBaseCurrency.
  rewrite Hfx. split.
  - by rewrite fmul_fone.
  - destruct (decide (Trade.ibCommissionCurrency t = Trade.currency t));
      [|done].
    apply fmul_fone. by rewrite is_binary64_fabs.
Qed.

Lemma unit_rate_is_exact_witness :
  CgtCalculatorTrade.price Plain.aapl_row = fabs (Plain.lit "150.0") /\
  CgtCalculatorTrade.charges Plain.aapl_row = fabs (Plain.lit "1.0").
Proof.
  exact (unit_rate_is_exact Plain.aapl_trade Plain.aapl_row
           eq_refl eq_refl eq_refl eq_refl).
Defined.

(** X24: the declared [count] is kept as it is read and never compared
    with anything: a document that parses has the integer of the
    attribute as its count and one statement for every [FlexStatement]
    element, in document order, whatever the two numbers are. *)
Theorem declared_count_is_kept `{!Builtins} (root flex_statements_elem : Element)
    (doc : FlexQueryResponse.t) :
  parse_root root = Ok doc ->
  find root "FlexStatements" = Some flex_statements_elem ->
  exists fss,
    FlexQueryResponse.flexStatements doc = Some fss /\
    py_int (get flex_statements_elem "count")
      = Ok (FlexStatements.count fss) /\
    Forall2 (fun elem statement => parse_statement elem = Ok statement)
      (findall flex_statements_elem "FlexStatement")
      (FlexStatements.flexStatement fss) /\
    length (FlexStatements.flexStatement fss) =
    length (findall flex_statements_elem "FlexStatement").
Proof.
  unfold parse_root. intros Hdoc Hfind. rewrite Hfind in Hdoc.
  apply bind_Ok_inv in Hdoc as (o & Ho & [= <-]).
  apply bind_Ok_inv in Ho as (n & Hn & Ho).
  apply bind_Ok_inv in Ho as (sts & Hsts & [= <-]).
  apply append_each_Ok in Hsts.
  eexists. split; [reflexivity|]. split; [done|]. split; [done|].
  symmetry. by eapply Forall2_length.
Qed.

Lemma declared_count_is_kept_witness :
  exists fss,
    FlexQueryResponse.flexStatements Samples.miscount_doc = Some fss /\
    FlexStatements.count fss = 5 /\
    length (FlexStatements.flexStatement fss) = 1%nat.
Proof.
  destruct (@declared_count_is_kept Plain.builtins Samples.miscount_root
              Samples.miscount_elem Samples.miscount_doc eq_refl eq_refl)
    as (fss & Hfss & Hcount & _ & Hlen).
  exists fss. split; [exact Hfss|]. split.
  - injection Hcount as <-. reflexivity.
  - exact Hlen.
Defined.
